(** * py115.services: the offline-task and storage facades

    A shallow embedding of [py115/services.py].  The two service classes
    are thin wrappers around a [Client] that executes API specs; what is
    verified here is which calls each method performs, in which order,
    and what it hands back.

    Layout: Python values and the handful of Python operators the module
    applies to decoded payloads; the API specs and the client; an
    error-and-call-log monad; the methods of [OfflineService] and
    [StorageService]; the two listing generators as resumable frames;
    then the theorems. *)

From Stdlib Require Import String Ascii ZArith List Bool Arith Lia.
Import ListNotations.
Open Scope string_scope.
Open Scope Z_scope.
#[local] Set Warnings "-register-all".

(** ** Python values

    Decoded JSON payloads: [None], booleans, integers, strings, lists and
    insertion-ordered dicts with string keys.  Floats are left out; a
    string is a sequence of characters with code points below 256. *)

Inductive pyval : Type :=
| PNone
| PBool (b : bool)
| PInt (n : Z)
| PStr (s : string)
| PList (items : list pyval)
| PDict (entries : list (string * pyval)).

(** Exceptions that can leave a method of this module. *)
Inductive exn : Type :=
| KeyError (key : string)
| TypeError
| OSError (msg : string)
| ApiError (msg : string).

Inductive outcome (A : Type) : Type :=
| Return (a : A)
| Raise (e : exn).
Arguments Return {A} a.
Arguments Raise {A} e.

Module Py.

(** Dict lookup by key: the first entry with that key. *)
Fixpoint lookup (k : string) (d : list (string * pyval)) : option pyval :=
  match d with
  | [] => None
  | (k', v) :: d' => if String.eqb k k' then Some v else lookup k d'
  end.

Definition has_key (k : string) (d : list (string * pyval)) : bool :=
  match lookup k d with Some _ => true | None => false end.

(** [v[k]] for a string subscript [k]. *)
Definition getitem (v : pyval) (k : string) : outcome pyval :=
  match v with
  | PDict d =>
      match lookup k d with
      | Some x => Return x
      | None => Raise (KeyError k)
      end
  | _ => Raise TypeError
  end.

(** [bool(v)]. *)
Definition truthy (v : pyval) : bool :=
  match v with
  | PNone => false
  | PBool b => b
  | PInt n => negb (n =? 0)
  | PStr s => match s with EmptyString => false | _ => true end
  | PList l => match l with [] => false | _ => true end
  | PDict d => match d with [] => false | _ => true end
  end.

Definition is_none (v : pyval) : bool :=
  match v with PNone => true | _ => false end.

(** [bool] is a subclass of [int]: [True] counts as 1. *)
Definition as_int (v : pyval) : option Z :=
  match v with
  | PInt n => Some n
  | PBool b => Some (if b then 1 else 0)
  | _ => None
  end.

Fixpoint chars (s : string) : list pyval :=
  match s with
  | EmptyString => []
  | String c s' => PStr (String c EmptyString) :: chars s'
  end.

(** The items a [for] loop over [v] visits. *)
Definition iter (v : pyval) : outcome (list pyval) :=
  match v with
  | PList l => Return l
  | PDict d => Return (map (fun kv => PStr (fst kv)) d)
  | PStr s => Return (chars s)
  | _ => Raise TypeError
  end.

(** [len(v)]. *)
Definition len (v : pyval) : outcome Z :=
  match v with
  | PList l => Return (Z.of_nat (List.length l))
  | PDict d => Return (Z.of_nat (List.length d))
  | PStr s => Return (Z.of_nat (String.length s))
  | _ => Raise TypeError
  end.

(** [v + n] for an [int] n. *)
Definition add_int (v : pyval) (n : Z) : outcome Z :=
  match as_int v with
  | Some a => Return (a + n)
  | None => Raise TypeError
  end.

(** [n >= v] for an [int] n. *)
Definition int_ge (n : Z) (v : pyval) : outcome bool :=
  match as_int v with
  | Some b => Return (n >=? b)
  | None => Raise TypeError
  end.

(** [k in v] for a string [k]. *)
Definition contains (k : string) (v : pyval) : outcome bool :=
  match v with
  | PDict d => Return (has_key k d)
  | PList l =>
      Return (existsb (fun x => match x with
                                | PStr s => String.eqb k s
                                | _ => false
                                end) l)
  | PStr s =>
      Return (match String.index 0 k s with Some _ => true | None => false end)
  | _ => Raise TypeError
  end.

(** [a == b]. *)
Fixpoint eq (a b : pyval) {struct a} : bool :=
  match a, b with
  | PNone, PNone => true
  | PStr s, PStr t => String.eqb s t
  | PList xs, PList ys =>
      (fix all2 (xs ys : list pyval) {struct xs} : bool :=
         match xs, ys with
         | [], [] => true
         | x :: xs', y :: ys' => eq x y && all2 xs' ys'
         | _, _ => false
         end) xs ys
  | PDict d, PDict e =>
      (fix sub (d : list (string * pyval)) : bool :=
         match d with
         | [] => true
         | (k, v) :: d' =>
             match lookup k e with
             | Some w => eq v w
             | None => false
             end && sub d'
         end) d
      && forallb (fun kv => has_key (fst kv) d) e
  | _, _ =>
      match as_int a, as_int b with
      | Some m, Some n => m =? n
      | _, _ => false
      end
  end.

(** [a < b]; unorderable operands raise [TypeError]. *)
Fixpoint lt (a b : pyval) {struct a} : outcome bool :=
  match a, b with
  | PStr s, PStr t => Return (String.ltb s t)
  | PList xs, PList ys =>
      (fix lex (xs ys : list pyval) {struct xs} : outcome bool :=
         match xs, ys with
         | [], [] => Return false
         | [], _ :: _ => Return true
         | _ :: _, [] => Return false
         | x :: xs', y :: ys' => if eq x y then lex xs' ys' else lt x y
         end) xs ys
  | _, _ =>
      match as_int a, as_int b with
      | Some m, Some n => Return (m <? n)
      | _, _ => Raise TypeError
      end
  end.

End Py.

(** ** Streams, API specs and the client *)

(** A binary stream as [request_upload_data] sees it: its two capability
    flags and the bytes behind it. *)
Record BinaryIO : Type := {
  readable : bool;
  seekable : bool;
  content : list Byte.byte
}.

(** The upload helper handed to the service at creation; opaque here. *)
Record Helper : Type := { helper_signature_key : string }.

(** The specs this module builds, named after their modules in
    [py115._internal.api].  A list spec carries its cursor, which
    [set_page] and [set_offset] overwrite. *)
Inductive ApiSpec : Type :=
| offline_ListApi (page : Z)
| offline_AddUrlsApi (app_ver user_id : string) (urls : list string)
| offline_DeleteApi (task_ids : list string)
| file_ListApi (dir_id : string) (offset : Z)
| file_MoveApi (target_dir_id : string) (file_ids : list string)
| file_DeleteApi (file_ids : list string)
| file_DownloadApi (pickcode : string)
| upload_InitApi (target_id file_name : string) (file_io : BinaryIO)
                 (helper : Helper)
| upload_TokenApi.

(** Modelled from the spec: the constructors and cursor setters of the
    two list specs, which live in [py115._internal.api]; task listing is
    page-indexed from 1, file listing offset-indexed from 0. *)
Definition new_offline_ListApi : ApiSpec := offline_ListApi 1.

Definition new_file_ListApi (dir_id : string) : ApiSpec := file_ListApi dir_id 0.

Definition set_page (spec : ApiSpec) (page : Z) : ApiSpec :=
  match spec with
  | offline_ListApi _ => offline_ListApi page
  | other => other
  end.

Definition set_offset (spec : ApiSpec) (offset : Z) : ApiSpec :=
  match spec with
  | file_ListApi dir_id _ => file_ListApi dir_id offset
  | other => other
  end.

(** The calls made so far through a client, oldest first. *)
Definition CallLog : Type := list ApiSpec.

(** The client and the remote behind it.  What a call answers, and which
    cookies the session holds, may depend on every call made before. *)
Record Client : Type := {
  respond : CallLog -> ApiSpec -> outcome pyval;
  export_cookies : CallLog -> pyval -> outcome (list (string * string));
  user_agent : string
}.

(** ** Computations that call the client

    A computation reads and extends the call log and either returns or
    raises. *)
Definition M (A : Type) : Type := CallLog -> outcome A * CallLog.

Definition ret {A} (a : A) : M A := fun log => (Return a, log).

Definition raise {A} (e : exn) : M A := fun log => (Raise e, log).

Definition bind {A B} (m : M A) (k : A -> M B) : M B :=
  fun log =>
    match m log with
    | (Return a, log') => k a log'
    | (Raise e, log') => (Raise e, log')
    end.

Definition lift {A} (o : outcome A) : M A := fun log => (o, log).

Notation "x <- m ;; k" := (bind m (fun x => k))
  (at level 61, m at next level, right associativity).

(** [client.execute_api(spec)]: one network call, recorded in the log. *)
Definition execute_api (c : Client) (spec : ApiSpec) : M pyval :=
  fun log => (respond c log spec, (log ++ [spec])%list).

(** [client.export_cookies(url=...)] reads the session; no call is made. *)
Definition client_export_cookies (c : Client) (url : pyval)
  : M (list (string * string)) :=
  fun log => (export_cookies c log url, log).

(** ** Domain objects of [py115.types]

    Modelled from the spec: [Task], [File], [DownloadTicket] and
    [UploadTicket] are value objects built from decoded records; their
    classes are in [py115/types.py]. *)
Record Task : Type := { task_record : pyval }.
Record File : Type := { file_record : pyval }.

Record DownloadTicket : Type := {
  download_result : pyval;
  headers : list (string * string)
}.

Record UploadTicket : Type := {
  init_part : pyval;
  token_part : pyval
}.

Definition DownloadTicket_create (result : pyval)
    (hdrs : list (string * string)) : DownloadTicket :=
  {| download_result := result; headers := hdrs |}.

Definition UploadTicket_create (init_result token_result : pyval)
  : UploadTicket :=
  {| init_part := init_result; token_part := token_result |}.

(** ** Generators

    A generator is a frame (where its body is suspended) and a resume
    function that runs the body up to the next [yield], the next loop
    back-edge, or its end. *)
Inductive resumed (F Y : Type) : Type :=
| Yield (y : Y) (next : F)
| Jump (next : F)
| StopIteration.
Arguments Yield {F Y} y next.
Arguments Jump {F Y} next.
Arguments StopIteration {F Y}.

Inductive ending : Type :=
| Exhausted
| Raised (e : exn)
| Suspended.

Record traversal (Y : Type) : Type := {
  yielded : list Y;
  ended : ending;
  calls : CallLog
}.
Arguments yielded {Y} t.
Arguments ended {Y} t.
Arguments calls {Y} t.

(** Pull items until the generator ends, raises, or [fuel] resumptions
    have been spent. *)
Fixpoint drive {F Y : Type} (resume : F -> M (resumed F Y))
    (fuel : nat) (frame : F) (log : CallLog) : traversal Y :=
  match fuel with
  | O => {| yielded := []; ended := Suspended; calls := log |}
  | S fuel' =>
      match resume frame log with
      | (Raise e, log') => {| yielded := []; ended := Raised e; calls := log' |}
      | (Return StopIteration, log') =>
          {| yielded := []; ended := Exhausted; calls := log' |}
      | (Return (Jump frame'), log') => drive resume fuel' frame' log'
      | (Return (Yield y frame'), log') =>
          let t := drive resume fuel' frame' log' in
          {| yielded := y :: yielded t; ended := ended t; calls := calls t |}
      end
  end.

(** The traversal that yields [ys] and then goes on as [t]. *)
Definition prepend {Y : Type} (ys : list Y) (t : traversal Y) : traversal Y :=
{| yielded := ys ++ yielded t; ended := ended t; calls := calls t |}.

(** ** OfflineService *)
Module OfflineService.

Record t : Type := {
  _client : Client;
  _app_ver : string;
  _user_id : string
}.

(** Where the body of [list] can be suspended: at the top of
    [while True], or inside the [for] loop with [rest] still to visit. *)
Inductive list_frame : Type :=
| AtFetch (spec : ApiSpec)
| InFor (spec : ApiSpec) (result : pyval) (rest : Datatypes.list pyval).

Definition list_resume (self : t) (frame : list_frame)
  : M (resumed list_frame Task) :=
  match frame with
  | AtFetch spec =>
      result <- execute_api (_client self) spec ;;
      tasks <- lift (Py.getitem result "tasks") ;;
      items <- lift (Py.iter tasks) ;;
      ret (Jump (InFor spec result items))
  | InFor spec result (t0 :: rest) =>
      ret (Yield {| task_record := t0 |} (InFor spec result rest))
  | InFor spec result [] =>
      page <- lift (Py.getitem result "page") ;;
      page_count <- lift (Py.getitem result "page_count") ;;
      more <- lift (Py.lt page page_count) ;;
      if more then
        next_page <- lift (Py.add_int page 1) ;;
        ret (Jump (AtFetch (set_page spec next_page)))
      else
        ret StopIteration
  end.

Definition add_url (self : t) (urls : Datatypes.list string)
  : M (Datatypes.list Task) :=
  if (List.length urls =? 0)%nat then ret []
  else
    add_results <- execute_api (_client self)
      (offline_AddUrlsApi (_app_ver self) (_user_id self) urls) ;;
    items <- lift (Py.iter add_results) ;;
    ret (map (fun r => {| task_record := r |}) items).

Definition delete (self : t) (task_ids : Datatypes.list string) : M unit :=
  if (List.length task_ids =? 0)%nat then ret tt
  else
    _ <- execute_api (_client self) (offline_DeleteApi task_ids) ;;
    ret tt.

(** Calling [list()] runs nothing yet: it creates the generator,
    suspended before its first statement after [spec] is built. *)
Definition list (self : t) : list_frame := AtFetch new_offline_ListApi.

End OfflineService.

(** ** The local file system, as [request_upload] uses it *)
Record LocalFS : Type := {
  path_exists : string -> bool;
  open_rb : string -> outcome BinaryIO
}.

Fixpoint last_component (acc path : string) : string :=
  match path with
  | EmptyString => acc
  | String c rest =>
      if Ascii.eqb c "/"%char then last_component EmptyString rest
      else last_component (acc ++ String c EmptyString) rest
  end.

(** [os.path.basename]: what follows the last slash. *)
Definition basename (path : string) : string := last_component EmptyString path.

(** ** StorageService *)
Module StorageService.

Record t : Type := {
  _client : Client;
  _upload_helper : Helper
}.

Inductive list_frame : Type :=
| AtFetch (spec : ApiSpec)
| InFor (spec : ApiSpec) (result : pyval) (rest : Datatypes.list pyval).

Definition list_resume (self : t) (frame : list_frame)
  : M (resumed list_frame File) :=
  match frame with
  | AtFetch spec =>
      result <- execute_api (_client self) spec ;;
      files <- lift (Py.getitem result "files") ;;
      items <- lift (Py.iter files) ;;
      ret (Jump (InFor spec result items))
  | InFor spec result (f :: rest) =>
      ret (Yield {| file_record := f |} (InFor spec result rest))
  | InFor spec result [] =>
      offset <- lift (Py.getitem result "offset") ;;
      files <- lift (Py.getitem result "files") ;;
      n <- lift (Py.len files) ;;
      next_offset <- lift (Py.add_int offset n) ;;
      count <- lift (Py.getitem result "count") ;;
      stop <- lift (Py.int_ge next_offset count) ;;
      if stop then ret StopIteration
      else ret (Jump (AtFetch (set_offset spec next_offset)))
  end.

Definition move (self : t) (target_dir_id : string)
    (file_ids : Datatypes.list string) : M unit :=
  if (List.length file_ids =? 0)%nat then ret tt
  else
    _ <- execute_api (_client self) (file_MoveApi target_dir_id file_ids) ;;
    ret tt.

Definition delete (self : t) (file_ids : Datatypes.list string) : M unit :=
  if (List.length file_ids =? 0)%nat then ret tt
  else
    _ <- execute_api (_client self) (file_DeleteApi file_ids) ;;
    ret tt.

(** The [Cookie] header: ['; '.join(f'{k}={v}' ...)]. *)
Definition cookie_header (cookies : Datatypes.list (string * string)) : string :=
  String.concat "; " (map (fun kv => fst kv ++ "=" ++ snd kv) cookies).

Definition request_download (self : t) (pickcode : string)
  : M (option DownloadTicket) :=
  result <- execute_api (_client self) (file_DownloadApi pickcode) ;;
  if Py.is_none result then ret None
  else
    has_url <- lift (Py.contains "url" result) ;;
    if negb has_url then ret None
    else
      url <- lift (Py.getitem result "url") ;;
      cookies <- client_export_cookies (_client self) url ;;
      let hdrs :=
        [ ("User-Agent", user_agent (_client self));
          ("Cookie", cookie_header cookies) ] in
      ret (Some (DownloadTicket_create result hdrs)).

Definition request_upload_data (self : t) (dir_id save_name : string)
    (data_io : BinaryIO) : M (option UploadTicket) :=
  if negb (readable data_io && seekable data_io) then ret None
  else
    init_result <- execute_api (_client self)
      (upload_InitApi ("U_1_" ++ dir_id) save_name data_io
                      (_upload_helper self)) ;;
    done <- lift (Py.getitem init_result "done") ;;
    token_result <-
      (if negb (Py.truthy done)
       then execute_api (_client self) upload_TokenApi
       else ret PNone) ;;
    ret (Some (UploadTicket_create init_result token_result)).

Definition request_upload (fs : LocalFS) (self : t)
    (dir_id file_path : string) : M (option UploadTicket) :=
  if negb (path_exists fs file_path) then ret None
  else
    let file_name := basename file_path in
    file_io <- lift (open_rb fs file_path) ;;
    request_upload_data self dir_id file_name file_io.

Definition list (self : t) (dir_id : string) : list_frame :=
  AtFetch (new_file_ListApi dir_id).

End StorageService.

(** ** Sample clients and streams *)
Module Sample.

(** A remote that rejects every call. *)
Definition offline_client : Client :=
  {| respond := fun _ _ => Raise (ApiError "offline");
     export_cookies := fun _ _ => Return [];
     user_agent := "Mozilla/5.0" |}.

Definition storage : StorageService.t :=
  {| StorageService._client := offline_client;
     StorageService._upload_helper := {| helper_signature_key := "k" |} |}.

(** A readable stream that cannot seek, such as a pipe. *)
Definition pipe_io : BinaryIO :=
  {| readable := true; seekable := false; content := [] |}.

Definition memory_io : BinaryIO :=
  {| readable := true; seekable := true; content := [Byte.x61; Byte.x62] |}.

(** A file system holding the single file [/tmp/a.bin]. *)
Definition one_file_fs : LocalFS :=
  {| path_exists := fun p => String.eqb p "/tmp/a.bin";
     open_rb := fun p =>
       if String.eqb p "/tmp/a.bin" then Return memory_io
       else Raise (OSError "No such file or directory") |}.

(** A remote that answers the upload pre-check with [init_result] and
    the token call with [token_result]. *)
Definition upload_client (init_result token_result : pyval) : Client :=
  {| respond := fun _ spec =>
       match spec with
       | upload_InitApi _ _ _ _ => Return init_result
       | upload_TokenApi => Return token_result
       | _ => Raise (ApiError "unexpected call")
       end;
     export_cookies := fun _ _ => Return [];
     user_agent := "Mozilla/5.0" |}.

Definition uploader (init_result token_result : pyval) : StorageService.t :=
  {| StorageService._client := upload_client init_result token_result;
     StorageService._upload_helper := {| helper_signature_key := "k" |} |}.

(** A remote that answers every download request with [result]; the
    session holds [jar] once at least one call has been made. *)
Definition download_client (result : pyval)
    (jar : list (string * string)) : Client :=
  {| respond := fun _ spec =>
       match spec with
       | file_DownloadApi _ => Return result
       | _ => Raise (ApiError "unexpected call")
       end;
     export_cookies := fun log _ =>
       match log with [] => Return [] | _ => Return jar end;
     user_agent := "Mozilla/5.0" |}.

Definition downloader (result : pyval) (jar : list (string * string))
  : StorageService.t :=
  {| StorageService._client := download_client result jar;
     StorageService._upload_helper := {| helper_signature_key := "k" |} |}.

(** A pre-check answer: the content is already stored. *)
Definition done_answer : pyval :=
PDict [("done", PBool true); ("file_id", PStr "f1"); ("pickcode", PStr "pc1")].

(** A pre-check the remote turned down: [done] is 0 and a status says
    why. *)
Definition rejected_answer : pyval :=
PDict [("done", PInt 0); ("statuscode", PInt 402);
       ("statusmsg", PStr "rejected")].

Definition token_answer : pyval :=
PDict [("AccessKeyId", PStr "id"); ("AccessKeySecret", PStr "secret");
       ("SecurityToken", PStr "token")].

(** Download answers with and without a URL. *)
Definition url_answer : pyval :=
PDict [("file_name", PStr "a.bin"); ("url", PStr "https://cdn/a.bin")].

Definition no_url_answer : pyval := PDict [("file_name", PStr "a.bin")].

Definition session_jar : list (string * string) :=
[("UID", "1"); ("CID", "2"); ("SEID", "3")].

(** The ticket for [url_answer] under [session_jar]. *)
Definition url_ticket : DownloadTicket :=
{| download_result := url_answer;
   headers := [ ("User-Agent", "Mozilla/5.0");
                ("Cookie", "UID=1; CID=2; SEID=3") ] |}.

End Sample.

(** ** Paged remotes

    What it means for a remote to serve a fixed collection in pages of at
    most [limit] records, for the file listing (by offset) and for the
    task listing (by page number). *)
Module Remote.

(** Pages needed for [n] records, [limit] to a page. *)
Definition div_ceil (n limit : nat) : nat := (n + limit - 1) / limit.

Definition slice (all : list pyval) (start limit : nat) : list pyval :=
firstn limit (skipn start all).

(** The answer to a file listing at [offset]. *)
Definition file_page (all : list pyval) (limit : nat) (offset : Z) : pyval :=
PDict [ ("files", PList (slice all (Z.to_nat offset) limit));
        ("offset", PInt offset);
        ("count", PInt (Z.of_nat (List.length all))) ].

(** The answer to a task listing at [page], counted from 1. *)
Definition task_page (all : list pyval) (limit : nat) (page : Z) : pyval :=
PDict [ ("tasks", PList (slice all ((Z.to_nat page - 1) * limit) limit));
        ("page", PInt page);
        ("page_count", PInt (Z.of_nat (div_ceil (List.length all) limit)));
        ("count", PInt (Z.of_nat (List.length all))) ].

(** The remote's collection after each number of calls: [snapshot t] is
    what it holds when [t] calls have been made. *)
Definition history : Type := nat -> list pyval.

Definition no_shrink (h : history) : Prop :=
forall t, (List.length (h t) <= List.length (h (S t)))%nat.

Definition unchanged (h : history) (all : list pyval) : Prop :=
forall t, h t = all.

(** [r] is the page at [offset] of the collection [all]: it lists the
    records from [offset] on, [limit] at most, echoes the offset and
    reports the size of the collection.  It may carry more fields. *)
Definition is_file_page (r : pyval) (all : list pyval) (limit : nat)
  (offset : Z) : Prop :=
Py.getitem r "files" = Return (PList (slice all (Z.to_nat offset) limit))
/\ Py.getitem r "offset" = Return (PInt offset)
/\ Py.getitem r "count" = Return (PInt (Z.of_nat (List.length all))).

Definition is_task_page (r : pyval) (all : list pyval) (limit : nat)
  (page : Z) : Prop :=
Py.getitem r "tasks"
  = Return (PList (slice all ((Z.to_nat page - 1) * limit) limit))
/\ Py.getitem r "page" = Return (PInt page)
/\ Py.getitem r "page_count"
   = Return (PInt (Z.of_nat (div_ceil (List.length all) limit)))
/\ Py.getitem r "count" = Return (PInt (Z.of_nat (List.length all))).

(** Every file listing of [dir_id] is answered with the page of the
    collection held at that moment. *)
Definition serves_files (c : Client) (dir_id : string) (h : history)
  (limit : nat) : Prop :=
forall log offset,
  exists r, respond c log (file_ListApi dir_id offset) = Return r
            /\ is_file_page r (h (List.length log)) limit offset.

Definition serves_tasks (c : Client) (h : history) (limit : nat) : Prop :=
forall log page,
  exists r, respond c log (offline_ListApi page) = Return r
            /\ is_task_page r (h (List.length log)) limit page.

(** A remote built from a history. *)
Definition paged_client (h : history) (limit : nat) : Client :=
{| respond := fun log spec =>
     match spec with
     | file_ListApi _ offset =>
         Return (file_page (h (List.length log)) limit offset)
     | offline_ListApi page =>
         Return (task_page (h (List.length log)) limit page)
     | _ => Raise (ApiError "unexpected call")
     end;
   export_cookies := fun _ _ => Return [];
   user_agent := "Mozilla/5.0" |}.

Definition numbered (n : nat) : list pyval :=
map (fun i => PDict [("id", PInt (Z.of_nat i))]) (seq 0 n).

(** 125 records, never changing, 50 to a page. *)
Definition steady_125 : Client := paged_client (fun _ => numbered 125) 50.

(** A collection of three records that gains a fourth after the first
    call; two to a page. *)
Definition growing : history :=
fun t => match t with O => numbered 3 | S _ => numbered 4 end.

Definition growing_client : Client := paged_client growing 2.

Definition storage_on (c : Client) : StorageService.t :=
{| StorageService._client := c;
   StorageService._upload_helper := {| helper_signature_key := "k" |} |}.

Definition offline_on (c : Client) : OfflineService.t :=
{| OfflineService._client := c;
   OfflineService._app_ver := "1.0";
   OfflineService._user_id := "u" |}.

(** The offsets a complete file listing asks for, and the pages a
    complete task listing asks for. *)
Definition expected_offsets (n limit : nat) : list Z :=
map (fun k => Z.of_nat (k * limit)) (seq 0 (Nat.max 1 (div_ceil n limit))).

Definition expected_pages (n limit : nat) : list Z :=
map Z.of_nat (seq 1 (Nat.max 1 (div_ceil n limit))).

End Remote.

(** ** Scripted remotes

    A remote that answers its calls from a fixed script, whatever is
    asked: the [n]-th call gets the [n]-th entry, and calls beyond the
    script fail. *)
Module Scripted.

Definition client (answers : list (outcome pyval)) : Client :=
{| respond := fun log _ =>
     nth (List.length log) answers (Raise (ApiError "no more answers"));
   export_cookies := fun _ _ => Return [];
   user_agent := "Mozilla/5.0" |}.

(** A remote that gives the same answer to every call. *)
Definition echo (answer : pyval) : Client :=
{| respond := fun _ _ => Return answer;
   export_cookies := fun _ _ => Return [];
   user_agent := "Mozilla/5.0" |}.

Definition storage (c : Client) : StorageService.t :=
{| StorageService._client := c;
   StorageService._upload_helper := {| helper_signature_key := "k" |} |}.

Definition offline (c : Client) : OfflineService.t :=
{| OfflineService._client := c;
   OfflineService._app_ver := "1.0";
   OfflineService._user_id := "u" |}.

Definition two_records : list pyval :=
[PDict [("id", PInt 0)]; PDict [("id", PInt 1)]].

(** A first page of two files out of five. *)
Definition first_page : pyval :=
PDict [("files", PList two_records); ("offset", PInt 0); ("count", PInt 5)].

(** A page that lists two files and says nothing of where it stands. *)
Definition bare_page : pyval := PDict [("files", PList two_records)].

(** A page that lists two files and its offset, but no total. *)
Definition uncounted_page : pyval :=
PDict [("files", PList two_records); ("offset", PInt 0)].

(** An empty page of a collection said to hold three files. *)
Definition empty_page : pyval :=
PDict [("files", PList []); ("offset", PInt 0); ("count", PInt 3)].

(** Page 1 of 2 of the tasks. *)
Definition task_page_1_of_2 : pyval :=
PDict [("tasks", PList two_records); ("page", PInt 1); ("page_count", PInt 2)].

(** The same, with the page numbers sent as strings. *)
Definition task_page_as_text : pyval :=
PDict [("tasks", PList two_records); ("page", PStr "1");
       ("page_count", PStr "2")].

(** A local file system in which every path exists and opens as [io]. *)
Definition any_file_fs (io : BinaryIO) : LocalFS :=
{| path_exists := fun _ => true; open_rb := fun _ => Return io |}.

(** A local file system in which every path is a directory. *)
Definition only_dirs_fs : LocalFS :=
{| path_exists := fun _ => true;
   open_rb := fun _ => Raise (OSError "Is a directory") |}.

End Scripted.

(** ** Paths *)

Fixpoint has_slash (s : string) : bool :=
match s with
| EmptyString => false
| String c rest => Ascii.eqb c "/"%char || has_slash rest
end.

(** ** Creating a directory

    [StorageService.make_dir] calls [dir.AddApi], a spec of its own kind;
    its calls are logged apart from those of the other methods. *)
Module MakeDir.

(** [d[k] = x]: replace the value under [k] where it stands, or add the
    entry at the end. *)
Fixpoint assign (k : string) (x : pyval) (d : list (string * pyval))
  : list (string * pyval) :=
match d with
| [] => [(k, x)]
| (k', v) :: d' =>
    if String.eqb k k' then (k, x) :: d' else (k', v) :: assign k x d'
end.

(** [v[k] = x] for a string subscript [k]. *)
Definition setitem (v : pyval) (k : string) (x : pyval) : outcome pyval :=
match v with
| PDict d => Return (PDict (assign k x d))
| _ => Raise TypeError
end.

Inductive DirSpec : Type :=
| dir_AddApi (parent_id name : string).

(** What the remote answers to a [dir.AddApi] call, given those made
    before. *)
Definition DirRemote : Type := list DirSpec -> DirSpec -> outcome pyval.

Definition make_dir (remote : DirRemote) (parent_id name : string)
    (log : list DirSpec) : outcome File * list DirSpec :=
let spec := dir_AddApi parent_id name in
let log' := (log ++ [spec])%list in
match remote log spec with
| Raise e => (Raise e, log')
| Return result =>
    match setitem result "pid" (PStr parent_id) with
    | Raise e => (Raise e, log')
    | Return result' => (Return {| file_record := result' |}, log')
    end
end.

(** A remote that answers every creation call with [answer]. *)
Definition answering (answer : pyval) : DirRemote := fun _ _ => Return answer.

End MakeDir.

(** * Properties *)

(** Expose what a computation does to the call log. *)
Ltac run_calls :=
  unfold bind, lift, execute_api, client_export_cookies, ret.

(** ** Upload negotiation *)

Section UploadNegotiation.

Variable self : StorageService.t.
Variables dir_id save_name : string.
Variable data_io : BinaryIO.
Variable log : CallLog.

Let client := StorageService._client self.
Let init_spec :=
  upload_InitApi ("U_1_" ++ dir_id) save_name data_io
                 (StorageService._upload_helper self).

(** C1: when the pre-check of a readable, seekable stream answers with a
    truthy [done], the pre-check is the only call made (the token
    endpoint is not called) and the ticket's token part is [None]. *)
Theorem upload_done_skips_token (init_result done : pyval) :
  readable data_io = true ->
  seekable data_io = true ->
  respond client log init_spec = Return init_result ->
  Py.getitem init_result "done" = Return done ->
  Py.truthy done = true ->
  StorageService.request_upload_data self dir_id save_name data_io log
  = (Return (Some {| init_part := init_result; token_part := PNone |}),
     (log ++ [init_spec])%list).
Proof.
  intros Hr Hs Hinit Hdone Htrue.
  unfold StorageService.request_upload_data. run_calls.
  rewrite Hr, Hs. cbn [andb negb].
  fold client. fold init_spec. rewrite Hinit, Hdone, Htrue. reflexivity.
Qed.

(** C2: when the pre-check answers with a falsy [done], whatever else the
    answer holds, the token endpoint is called exactly once, right after
    the pre-check; the ticket bundles the pre-check answer with the
    token answer, and a failing token call is raised to the caller. *)
Theorem upload_not_done_requests_token (init_result done : pyval) :
  readable data_io = true ->
  seekable data_io = true ->
  respond client log init_spec = Return init_result ->
  Py.getitem init_result "done" = Return done ->
  Py.truthy done = false ->
  StorageService.request_upload_data self dir_id save_name data_io log
  = (match respond client (log ++ [init_spec])%list upload_TokenApi with
     | Return token_result =>
         Return (Some {| init_part := init_result;
                         token_part := token_result |})
     | Raise e => Raise e
     end,
     (log ++ [init_spec; upload_TokenApi])%list).
Proof.
  intros Hr Hs Hinit Hdone Hfalse.
  unfold StorageService.request_upload_data. run_calls.
  rewrite Hr, Hs. cbn [andb negb].
  fold client. fold init_spec. rewrite Hinit, Hdone, Hfalse. cbn [negb].
  rewrite <- app_assoc. cbn [app].
  destruct (respond client (log ++ [init_spec])%list upload_TokenApi);
    reflexivity.
Qed.

(** C3, as the code has it: a stream that is not both readable and
    seekable makes [request_upload_data] return [None]; no call is made
    and nothing is raised. *)
Theorem upload_unusable_stream_returns_none :
  readable data_io && seekable data_io = false ->
  StorageService.request_upload_data self dir_id save_name data_io log
  = (Return None, log).
Proof.
  intros H. unfold StorageService.request_upload_data.
  rewrite H. reflexivity.
Qed.

End UploadNegotiation.


(** ** Paging: how one page is consumed *)

Lemma len_of_iter (v : pyval) (items : list pyval) :
  Py.iter v = Return items ->
  Py.len v = Return (Z.of_nat (List.length items)).
Proof.
  destruct v; cbn; try discriminate; intros H; injection H as <-.
  - clear. induction s as [|c s IH]; cbn [Py.chars String.length List.length].
    + reflexivity.
    + injection IH as IH. do 2 f_equal. lia.
  - reflexivity.
  - now rewrite length_map.
Qed.

Lemma prepend_nil {Y : Type} (t : traversal Y) : prepend [] t = t.
Proof. now destruct t. Qed.

Lemma prepend_cons {Y : Type} (y : Y) (ys : list Y) (t : traversal Y) :
  {| yielded := y :: yielded (prepend ys t);
     ended := ended (prepend ys t);
     calls := calls (prepend ys t) |} = prepend (y :: ys) t.
Proof. reflexivity. Qed.

Lemma prepend_app {Y : Type} (xs ys : list Y) (t : traversal Y) :
  prepend xs (prepend ys t) = prepend (xs ++ ys) t.
Proof. unfold prepend; cbn. now rewrite app_assoc. Qed.

Section FilePage.

Variable self : StorageService.t.

Let resume := StorageService.list_resume self.

(** The [for] loop yields the records left in the page, in order. *)
Lemma file_for_loop (spec : ApiSpec) (result : pyval) (rest : list pyval)
    (fuel : nat) (log : CallLog) :
  drive resume (List.length rest + fuel)
        (StorageService.InFor spec result rest) log
  = prepend (map Build_File rest)
      (drive resume fuel (StorageService.InFor spec result []) log).
Proof.
  induction rest as [|f rest IH]; cbn [List.length Nat.add map].
  - now rewrite prepend_nil.
  - cbn [drive resume]. unfold resume at 1.
    cbn [StorageService.list_resume ret]. fold resume.
    rewrite IH. apply prepend_cons.
Qed.

(** One whole page: a single call, every record of the answer yielded in
    order, then either the end or the next fetch at
    [offset + len(files)]. *)
Lemma file_list_page (spec : ApiSpec) (log : CallLog)
    (result files off cnt : pyval) (items : list pyval) (o n : Z)
    (fuel : nat) :
  respond (StorageService._client self) log spec = Return result ->
  Py.getitem result "files" = Return files ->
  Py.iter files = Return items ->
  Py.getitem result "offset" = Return off ->
  Py.as_int off = Some o ->
  Py.getitem result "count" = Return cnt ->
  Py.as_int cnt = Some n ->
  let next_offset := o + Z.of_nat (List.length items) in
  drive resume (S (List.length items + S fuel))
        (StorageService.AtFetch spec) log
  = prepend (map Build_File items)
      (if next_offset <? n
       then drive resume fuel
              (StorageService.AtFetch (set_offset spec next_offset))
              (log ++ [spec])%list
       else {| yielded := []; ended := Exhausted;
               calls := (log ++ [spec])%list |}).
Proof.
  intros Hres Hfiles Hiter Hoff Ho Hcnt Hn next_offset.
  cbn [drive]. unfold resume at 1.
  cbn [StorageService.list_resume]. unfold bind, execute_api, lift, ret.
  rewrite Hres, Hfiles, Hiter. fold resume.
  rewrite file_for_loop. f_equal.
  cbn [drive]. unfold resume at 1.
  cbn [StorageService.list_resume]. unfold bind, lift, ret.
  rewrite Hoff, Hfiles, (len_of_iter _ _ Hiter).
  unfold Py.add_int, Py.int_ge. rewrite Ho, Hcnt, Hn.
  fold next_offset. rewrite Z.geb_leb, Z.leb_antisym.
  destruct (next_offset <? n); reflexivity.
Qed.

End FilePage.

Section TaskPage.

Variable self : OfflineService.t.

Let resume := OfflineService.list_resume self.

Lemma task_for_loop (spec : ApiSpec) (result : pyval) (rest : list pyval)
    (fuel : nat) (log : CallLog) :
  drive resume (List.length rest + fuel)
        (OfflineService.InFor spec result rest) log
  = prepend (map Build_Task rest)
      (drive resume fuel (OfflineService.InFor spec result []) log).
Proof.
  induction rest as [|f rest IH]; cbn [List.length Nat.add map].
  - now rewrite prepend_nil.
  - cbn [drive resume]. unfold resume at 1.
    cbn [OfflineService.list_resume ret]. fold resume.
    rewrite IH. apply prepend_cons.
Qed.

(** One whole page of tasks: a single call, every task of the answer
    yielded in order, then either the end or the fetch of [page + 1]. *)
Lemma task_list_page (spec : ApiSpec) (log : CallLog)
    (result tasks page page_count : pyval) (items : list pyval)
    (more : bool) (fuel : nat) :
  respond (OfflineService._client self) log spec = Return result ->
  Py.getitem result "tasks" = Return tasks ->
  Py.iter tasks = Return items ->
  Py.getitem result "page" = Return page ->
  Py.getitem result "page_count" = Return page_count ->
  Py.lt page page_count = Return more ->
  drive resume (S (List.length items + S fuel))
        (OfflineService.AtFetch spec) log
  = prepend (map Build_Task items)
      (if more
       then match Py.add_int page 1 with
            | Return next_page =>
                drive resume fuel
                  (OfflineService.AtFetch (set_page spec next_page))
                  (log ++ [spec])%list
            | Raise e =>
                {| yielded := []; ended := Raised e;
                   calls := (log ++ [spec])%list |}
            end
       else {| yielded := []; ended := Exhausted;
               calls := (log ++ [spec])%list |}).
Proof.
  intros Hres Htasks Hiter Hpage Hcount Hlt.
  cbn [drive]. unfold resume at 1.
  cbn [OfflineService.list_resume]. unfold bind, execute_api, lift, ret.
  rewrite Hres, Htasks, Hiter. fold resume.
  rewrite task_for_loop. f_equal.
  cbn [drive]. unfold resume at 1.
  cbn [OfflineService.list_resume]. unfold bind, lift, ret.
  rewrite Hpage, Hcount, Hlt.
  destruct more; [|reflexivity].
  destruct (Py.add_int page 1); reflexivity.
Qed.

End TaskPage.

(** ** Paging: a complete traversal of an unchanging collection *)

Lemma div_ceil_covers (n limit : nat) :
  (0 < limit)%nat -> (n <= Remote.div_ceil n limit * limit)%nat.
Proof.
  intros Hl. unfold Remote.div_ceil.
  pose proof (Nat.div_mod_eq (n + limit - 1) limit) as E.
  pose proof (Nat.mod_upper_bound (n + limit - 1) limit) as B.
  nia.
Qed.

Lemma div_ceil_tight (n limit : nat) :
  (0 < limit)%nat -> (Remote.div_ceil n limit * limit < n + limit)%nat.
Proof.
  intros Hl. unfold Remote.div_ceil.
  pose proof (Nat.div_mod_eq (n + limit - 1) limit) as E.
  nia.
Qed.

Lemma slice_then_rest (all : list pyval) (start limit : nat) :
  (Remote.slice all start limit ++ skipn (start + limit) all)%list
  = skipn start all.
Proof.
  unfold Remote.slice.
  rewrite (Nat.add_comm start limit), <- skipn_skipn.
  apply firstn_skipn.
Qed.

Lemma slice_last (all : list pyval) (start limit : nat) :
  (List.length all <= start + limit)%nat ->
  Remote.slice all start limit = skipn start all.
Proof.
  intros H. unfold Remote.slice. apply firstn_all2.
  rewrite length_skipn. lia.
Qed.

Lemma length_slice (all : list pyval) (start limit : nat) :
  List.length (Remote.slice all start limit)
  = Nat.min limit (List.length all - start).
Proof. unfold Remote.slice. now rewrite length_firstn, length_skipn. Qed.

Section SteadyFiles.

Variable self : StorageService.t.
Variable dir_id : string.
Variable all : list pyval.
Variable limit : nat.

Hypothesis limit_pos : (0 < limit)%nat.
Hypothesis steady :
  forall log offset,
    exists r,
      respond (StorageService._client self) log (file_ListApi dir_id offset)
      = Return r
      /\ Remote.is_file_page r all limit offset.

Let n := List.length all.
Let pages := Nat.max 1 (Remote.div_ceil n limit).
Let fetch (k : nat) := file_ListApi dir_id (Z.of_nat (k * limit)).

(** From page [k] on, with [r] pages to go. *)
Lemma steady_files_from (r : nat) :
  forall (k : nat) (log : CallLog) (fuel : nat),
    (k + S r = pages)%nat ->
    (n - k * limit + 2 * S r <= fuel)%nat ->
    drive (StorageService.list_resume self) fuel
          (StorageService.AtFetch (fetch k)) log
    = {| yielded := map Build_File (skipn (k * limit) all);
         ended := Exhausted;
         calls := (log ++ map fetch (seq k (S r)))%list |}.
Proof.
  pose proof (div_ceil_covers n limit limit_pos) as Hcov.
  pose proof (div_ceil_tight n limit limit_pos) as Htight.
  induction r as [|r IH]; intros k log fuel Hk Hfuel.
  - (* the last page *)
    destruct (steady log (Z.of_nat (k * limit))) as (res & Hres & Hf & Ho & Hc).
    rewrite Nat2Z.id in Hf.
    assert (Hlen : List.length (Remote.slice all (k * limit) limit)
                   = (n - k * limit)%nat).
    { rewrite length_slice. fold n. subst pages. nia. }
    replace fuel with
      (S (List.length (Remote.slice all (k * limit) limit)
          + S (fuel - (n - k * limit) - 2))) by (rewrite Hlen; lia).
    rewrite (file_list_page self (fetch k) log res _ _ _ _ _ _ _
               Hres Hf eq_refl Ho eq_refl Hc eq_refl).
    rewrite Hlen.
    replace (Z.of_nat (k * limit) + Z.of_nat (n - k * limit)
             <? Z.of_nat (List.length all)) with false
      by (symmetry; apply Z.ltb_ge; fold n; subst pages; nia).
    unfold prepend; cbn [yielded ended calls seq map].
    rewrite app_nil_r, slice_last by (fold n; subst pages; nia).
    reflexivity.
  - (* a full page, and more to come *)
    destruct (steady log (Z.of_nat (k * limit))) as (res & Hres & Hf & Ho & Hc).
    rewrite Nat2Z.id in Hf.
    assert (Hnext : (S k * limit < n)%nat) by (subst pages; nia).
    assert (Hlen : List.length (Remote.slice all (k * limit) limit) = limit).
    { rewrite length_slice. fold n. nia. }
    replace fuel with
      (S (List.length (Remote.slice all (k * limit) limit)
          + S (fuel - limit - 2))) by (rewrite Hlen; nia).
    rewrite (file_list_page self (fetch k) log res _ _ _ _ _ _ _
               Hres Hf eq_refl Ho eq_refl Hc eq_refl).
    rewrite Hlen.
    replace (Z.of_nat (k * limit) + Z.of_nat limit
             <? Z.of_nat (List.length all)) with true
      by (symmetry; apply Z.ltb_lt; fold n; nia).
    replace (Z.of_nat (k * limit) + Z.of_nat limit)
      with (Z.of_nat (S k * limit)) by nia.
    change (set_offset (fetch k) (Z.of_nat (S k * limit))) with (fetch (S k)).
    rewrite (IH (S k)) by nia.
    unfold prepend; cbn [yielded ended calls].
    rewrite <- map_app.
    replace (S k * limit)%nat with (k * limit + limit)%nat by nia.
    rewrite slice_then_rest.
    rewrite <- app_assoc. reflexivity.
Qed.

End SteadyFiles.

Section SteadyTasks.

Variable self : OfflineService.t.
Variable all : list pyval.
Variable limit : nat.

Hypothesis limit_pos : (0 < limit)%nat.
Hypothesis steady :
  forall log page,
    exists r,
      respond (OfflineService._client self) log (offline_ListApi page)
      = Return r
      /\ Remote.is_task_page r all limit page.

Let n := List.length all.
Let pages := Nat.max 1 (Remote.div_ceil n limit).
Let fetch (k : nat) := offline_ListApi (Z.of_nat k).

(** From page [k] on, with [r] pages to go after it. *)
Lemma steady_tasks_from (r : nat) :
  forall (k : nat) (log : CallLog) (fuel : nat),
    (1 <= k)%nat ->
    (k + r = pages)%nat ->
    (n - (k - 1) * limit + 2 * S r <= fuel)%nat ->
    drive (OfflineService.list_resume self) fuel
          (OfflineService.AtFetch (fetch k)) log
    = {| yielded := map Build_Task (skipn ((k - 1) * limit) all);
         ended := Exhausted;
         calls := (log ++ map fetch (seq k (S r)))%list |}.
Proof.
  pose proof (div_ceil_covers n limit limit_pos) as Hcov.
  pose proof (div_ceil_tight n limit limit_pos) as Htight.
  induction r as [|r IH]; intros k log fuel Hk1 Hk Hfuel.
  - (* the last page *)
    destruct (steady log (Z.of_nat k)) as (res & Hres & Ht & Hp & Hpc & _).
    rewrite Nat2Z.id in Ht.
    assert (Hlen : List.length (Remote.slice all ((k - 1) * limit) limit)
                   = (n - (k - 1) * limit)%nat).
    { rewrite length_slice. fold n. subst pages. nia. }
    replace fuel with
      (S (List.length (Remote.slice all ((k - 1) * limit) limit)
          + S (fuel - (n - (k - 1) * limit) - 2))) by (rewrite Hlen; lia).
    rewrite (task_list_page self (fetch k) log res _ _ _ _
               (Z.of_nat k <? Z.of_nat (Remote.div_ceil n limit)) _
               Hres Ht eq_refl Hp Hpc eq_refl).
    replace (Z.of_nat k <? Z.of_nat (Remote.div_ceil n limit)) with false
      by (symmetry; apply Z.ltb_ge; subst pages; lia).
    unfold prepend; cbn [yielded ended calls seq map].
    rewrite app_nil_r, slice_last by (fold n; subst pages; nia).
    reflexivity.
  - (* a full page, and more to come *)
    destruct (steady log (Z.of_nat k)) as (res & Hres & Ht & Hp & Hpc & _).
    rewrite Nat2Z.id in Ht.
    assert (Hmore : (k < Remote.div_ceil n limit)%nat) by (subst pages; lia).
    assert (Hlen : List.length (Remote.slice all ((k - 1) * limit) limit)
                   = limit).
    { rewrite length_slice. fold n. nia. }
    replace fuel with
      (S (List.length (Remote.slice all ((k - 1) * limit) limit)
          + S (fuel - limit - 2))) by (rewrite Hlen; nia).
    rewrite (task_list_page self (fetch k) log res _ _ _ _
               (Z.of_nat k <? Z.of_nat (Remote.div_ceil n limit)) _
               Hres Ht eq_refl Hp Hpc eq_refl).
    replace (Z.of_nat k <? Z.of_nat (Remote.div_ceil n limit)) with true
      by (symmetry; apply Z.ltb_lt; lia).
    cbn [Py.add_int Py.as_int].
    replace (Z.of_nat k + 1) with (Z.of_nat (S k)) by lia.
    change (set_page (fetch k) (Z.of_nat (S k))) with (fetch (S k)).
    rewrite (IH (S k)) by nia.
    unfold prepend; cbn [yielded ended calls].
    rewrite <- map_app.
    replace ((S k - 1) * limit)%nat with ((k - 1) * limit + limit)%nat by nia.
    rewrite slice_then_rest.
    rewrite <- app_assoc. reflexivity.
Qed.

End SteadyTasks.


(** ** Upload negotiation on sample remotes *)

Lemma upload_done_skips_token_witness :
  StorageService.request_upload_data
    (Sample.uploader Sample.done_answer PNone) "0" "a.bin" Sample.memory_io []
  = (Return (Some {| init_part := Sample.done_answer; token_part := PNone |}),
     [upload_InitApi "U_1_0" "a.bin" Sample.memory_io
                     {| helper_signature_key := "k" |}]).
Proof.
  apply (upload_done_skips_token
           (Sample.uploader Sample.done_answer PNone) "0" "a.bin"
           Sample.memory_io [] Sample.done_answer (PBool true));
    reflexivity.
Defined.

Lemma upload_not_done_requests_token_witness :
  StorageService.request_upload_data
    (Sample.uploader Sample.rejected_answer Sample.token_answer)
    "0" "a.bin" Sample.memory_io []
  = (Return (Some {| init_part := Sample.rejected_answer;
                     token_part := Sample.token_answer |}),
     [upload_InitApi "U_1_0" "a.bin" Sample.memory_io
                     {| helper_signature_key := "k" |};
      upload_TokenApi]).
Proof.
  apply (upload_not_done_requests_token
           (Sample.uploader Sample.rejected_answer Sample.token_answer)
           "0" "a.bin" Sample.memory_io [] Sample.rejected_answer (PInt 0));
    reflexivity.
Defined.

Lemma upload_unusable_stream_returns_none_witness :
  StorageService.request_upload_data Sample.storage "0" "a.bin"
    Sample.pipe_io []
  = (Return None, []).
Proof.
  apply (upload_unusable_stream_returns_none
           Sample.storage "0" "a.bin" Sample.pipe_io []).
  reflexivity.
Defined.

(** C3, as stated, fails: for a readable stream that cannot seek the
    negotiator returns [None]; no exception of any kind leaves it. *)
Lemma upload_pipe_raises_nothing :
  fst (StorageService.request_upload_data Sample.storage "0" "a.bin"
         Sample.pipe_io [])
  = Return None
  /\ (forall e : exn,
        fst (StorageService.request_upload_data Sample.storage "0" "a.bin"
               Sample.pipe_io [])
        <> Raise e).
Proof. split; [reflexivity | intros e; discriminate]. Qed.

(** ** Bulk operations and downloads *)

(** C7: with no ids (or no URLs) the bulk operations return at once,
    normally, and leave the call log as it was: deleting tasks, deleting
    files and moving files return nothing; [add_url] returns an empty
    list. *)
Theorem empty_bulk_is_noop (offline : OfflineService.t)
    (storage : StorageService.t) (target_dir_id : string) (log : CallLog) :
  OfflineService.delete offline [] log = (Return tt, log)
  /\ StorageService.delete storage [] log = (Return tt, log)
  /\ StorageService.move storage target_dir_id [] log = (Return tt, log)
  /\ OfflineService.add_url offline [] log = (Return [], log).
Proof. repeat split. Qed.

Section Download.

Variable self : StorageService.t.
Variable pickcode : string.
Variable log : CallLog.

Let client := StorageService._client self.
Let spec := file_DownloadApi pickcode.

(** C6: when the download request is answered with [None], or with a
    payload in which ['url' in result] is false, [request_download]
    returns [None] after that one call; it raises nothing. *)
Theorem download_without_url_returns_none (result : pyval) :
  respond client log spec = Return result ->
  result = PNone \/ Py.contains "url" result = Return false ->
  StorageService.request_download self pickcode log
  = (Return None, (log ++ [spec])%list).
Proof.
  intros Hres Hno.
  unfold StorageService.request_download. run_calls.
  fold client. fold spec. rewrite Hres.
  destruct Hno as [-> | Hc]; [reflexivity|].
  destruct (Py.is_none result); [reflexivity|].
  rewrite Hc. reflexivity.
Qed.

(** C9: a ticket returned by [request_download] was built from the answer
    to its one call, and its headers are exactly [User-Agent], the
    client's user agent, and [Cookie], the [name=value] pairs of the
    cookies exported for the answer's URL right after that call, joined
    by ['; '].  The header is a string fixed at that moment: what the
    session exports after later calls plays no part in it. *)
Theorem download_ticket_headers (ticket : DownloadTicket) (log' : CallLog) :
  StorageService.request_download self pickcode log
  = (Return (Some ticket), log') ->
  log' = (log ++ [spec])%list
  /\ respond client log spec = Return (download_result ticket)
  /\ exists (url : pyval) (cookies : list (string * string)),
       Py.getitem (download_result ticket) "url" = Return url
       /\ export_cookies client log' url = Return cookies
       /\ headers ticket
          = [ ("User-Agent", user_agent client);
              ("Cookie",
               String.concat "; "
                 (map (fun kv => fst kv ++ "=" ++ snd kv) cookies)) ].
Proof.
  unfold StorageService.request_download. run_calls.
  fold client. fold spec.
  destruct (respond client log spec) as [result|e]; [|discriminate].
  destruct (Py.is_none result); [discriminate|].
  destruct (Py.contains "url" result) as [has|e]; [|discriminate].
  destruct has; cbn [negb]; [|discriminate].
  destruct (Py.getitem result "url") as [url|e] eqn:Hurl; [|discriminate].
  destruct (export_cookies client (log ++ [spec])%list url)
    as [cookies|e] eqn:Hjar; [|discriminate].
  intros H. injection H as <- <-.
  split; [reflexivity|]. split; [reflexivity|].
  exists url, cookies. cbn [download_result headers DownloadTicket_create].
  repeat split; assumption.
Qed.

End Download.

Lemma download_without_url_returns_none_witness :
  StorageService.request_download
    (Sample.downloader Sample.no_url_answer Sample.session_jar) "pc1" []
  = (Return None, [file_DownloadApi "pc1"]).
Proof.
  apply (download_without_url_returns_none
           (Sample.downloader Sample.no_url_answer Sample.session_jar)
           "pc1" [] Sample.no_url_answer).
  - reflexivity.
  - right. reflexivity.
Defined.

Lemma download_ticket_headers_witness :
  [file_DownloadApi "pc1"] = ([] ++ [file_DownloadApi "pc1"])%list
  /\ respond (Sample.download_client Sample.url_answer Sample.session_jar)
             [] (file_DownloadApi "pc1")
     = Return (download_result Sample.url_ticket)
  /\ exists (url : pyval) (cookies : list (string * string)),
       Py.getitem (download_result Sample.url_ticket) "url" = Return url
       /\ export_cookies
            (Sample.download_client Sample.url_answer Sample.session_jar)
            [file_DownloadApi "pc1"] url
          = Return cookies
       /\ headers Sample.url_ticket
          = [ ("User-Agent", "Mozilla/5.0");
              ("Cookie",
               String.concat "; "
                 (map (fun kv => fst kv ++ "=" ++ snd kv) cookies)) ].
Proof.
  exact (download_ticket_headers
           (Sample.downloader Sample.url_answer Sample.session_jar)
           "pc1" [] Sample.url_ticket [file_DownloadApi "pc1"] eq_refl).
Defined.

(** ** Uploading a local file *)

(** C10: for a path that does not exist, [request_upload] returns [None];
    nothing is opened, no call is made and nothing is raised. *)
Theorem upload_missing_file_returns_none (fs : LocalFS)
    (self : StorageService.t) (dir_id file_path : string) (log : CallLog) :
  path_exists fs file_path = false ->
  StorageService.request_upload fs self dir_id file_path log
  = (Return None, log).
Proof.
  intros H. unfold StorageService.request_upload. rewrite H. reflexivity.
Qed.

Lemma upload_missing_file_returns_none_witness :
  StorageService.request_upload Sample.one_file_fs Sample.storage
    "0" "/tmp/missing.bin" []
  = (Return None, []).
Proof.
  apply (upload_missing_file_returns_none Sample.one_file_fs Sample.storage
           "0" "/tmp/missing.bin" []).
  reflexivity.
Defined.

(** ** Listings *)

Lemma length_numbered (n : nat) : List.length (Remote.numbered n) = n.
Proof. unfold Remote.numbered. now rewrite length_map, length_seq. Qed.

Lemma paged_client_serves_files (h : Remote.history) (limit : nat)
    (dir_id : string) :
  Remote.serves_files (Remote.paged_client h limit) dir_id h limit.
Proof.
  intros log offset. eexists. split; [reflexivity|].
  repeat split.
Qed.

Lemma paged_client_serves_tasks (h : Remote.history) (limit : nat) :
  Remote.serves_tasks (Remote.paged_client h limit) h limit.
Proof.
  intros log page. eexists. split; [reflexivity|].
  repeat split.
Qed.

Lemma lt_as_int (a b : pyval) (m n : Z) :
  Py.as_int a = Some m -> Py.as_int b = Some n ->
  Py.lt a b = Return (m <? n).
Proof.
  destruct a, b; cbn; try discriminate;
    intros Ha Hb; injection Ha as <-; injection Hb as <-; reflexivity.
Qed.

(** Once a traversal has ended, more fuel changes nothing. *)
Lemma drive_more_fuel {F Y : Type} (resume : F -> M (resumed F Y))
    (fuel extra : nat) :
  forall (frame : F) (log : CallLog),
    ended (drive resume fuel frame log) <> Suspended ->
    drive resume (fuel + extra) frame log = drive resume fuel frame log.
Proof.
  induction fuel as [|fuel IH]; intros frame log H.
  - cbn in H. congruence.
  - cbn [drive Nat.add] in *.
    destruct (resume frame log) as [[[y next|next|]|e] log']; try reflexivity.
    + cbn [ended] in H. now rewrite IH.
    + now apply IH.
Qed.

(** C4: the file listing, page by page.  One resumption at the top of
    the loop makes one call; every record of the answer is yielded in
    order; the next position is the answer's [offset] plus the number of
    records in the page; the listing fetches again at that position when
    it is below the answer's [count] and ends otherwise.  Against a
    remote holding 125 records and serving 50 to a page, the listing
    makes exactly the three calls at offsets 0, 50 and 100 and yields the
    125 records in the remote's order. *)
Theorem file_listing_algorithm :
  (forall (self : StorageService.t) (spec : ApiSpec) (log : CallLog)
          (result files off cnt : pyval) (items : list pyval) (o n : Z)
          (fuel : nat),
      respond (StorageService._client self) log spec = Return result ->
      Py.getitem result "files" = Return files ->
      Py.iter files = Return items ->
      Py.getitem result "offset" = Return off ->
      Py.as_int off = Some o ->
      Py.getitem result "count" = Return cnt ->
      Py.as_int cnt = Some n ->
      drive (StorageService.list_resume self)
            (S (List.length items + S fuel))
            (StorageService.AtFetch spec) log
      = prepend (map Build_File items)
          (if o + Z.of_nat (List.length items) <? n
           then drive (StorageService.list_resume self) fuel
                  (StorageService.AtFetch
                     (set_offset spec (o + Z.of_nat (List.length items))))
                  (log ++ [spec])%list
           else {| yielded := []; ended := Exhausted;
                   calls := (log ++ [spec])%list |}))
  /\ (forall fuel : nat,
        (131 <= fuel)%nat ->
        drive (StorageService.list_resume (Remote.storage_on Remote.steady_125))
              fuel
              (StorageService.list (Remote.storage_on Remote.steady_125) "0")
              []
        = {| yielded := map Build_File (Remote.numbered 125);
             ended := Exhausted;
             calls := [ file_ListApi "0" 0; file_ListApi "0" 50;
                        file_ListApi "0" 100 ] |}).
Proof.
  split.
  - intros self spec log result files off cnt items o n fuel
      Hres Hfiles Hiter Hoff Ho Hcnt Hn.
    exact (file_list_page self spec log result files off cnt items o n fuel
             Hres Hfiles Hiter Hoff Ho Hcnt Hn).
  - intros fuel Hfuel.
    apply (steady_files_from (Remote.storage_on Remote.steady_125) "0"
             (Remote.numbered 125) 50 ltac:(lia)
             (paged_client_serves_files _ 50 "0") 2 0%nat [] fuel).
    + reflexivity.
    + rewrite length_numbered. lia.
Qed.

Lemma file_listing_algorithm_witness :
  drive (StorageService.list_resume (Remote.storage_on Remote.steady_125))
        27 (StorageService.AtFetch (file_ListApi "0" 100)) []
  = prepend (map Build_File (skipn 100 (Remote.numbered 125)))
      {| yielded := []; ended := Exhausted;
         calls := [file_ListApi "0" 100] |}.
Proof.
  exact (proj1 file_listing_algorithm
           (Remote.storage_on Remote.steady_125) (file_ListApi "0" 100) []
           (Remote.file_page (Remote.numbered 125) 50 100)
           (PList (skipn 100 (Remote.numbered 125)))
           (PInt 100) (PInt 125) (skipn 100 (Remote.numbered 125))
           100 125 0%nat
           eq_refl eq_refl eq_refl eq_refl eq_refl eq_refl eq_refl).
Defined.

(** C8: the task listing pages by number.  It starts at page 1; after
    yielding the tasks of an answer it reads the answer's [page] and
    [page_count], fetches [page + 1] when [page < page_count] and ends
    otherwise.  The number of tasks in the page plays no part in the
    cursor, unlike the file listing: over the same five records served
    three to a page, the task listing asks for pages 1 and 2 while the
    file listing asks for offsets 0 and 3. *)
Theorem task_listing_by_page :
  (forall self : OfflineService.t,
      OfflineService.list self = OfflineService.AtFetch (offline_ListApi 1))
  /\ (forall (self : OfflineService.t) (spec : ApiSpec) (log : CallLog)
            (result tasks page page_count : pyval) (items : list pyval)
            (p pc : Z) (fuel : nat),
        respond (OfflineService._client self) log spec = Return result ->
        Py.getitem result "tasks" = Return tasks ->
        Py.iter tasks = Return items ->
        Py.getitem result "page" = Return page ->
        Py.as_int page = Some p ->
        Py.getitem result "page_count" = Return page_count ->
        Py.as_int page_count = Some pc ->
        drive (OfflineService.list_resume self)
              (S (List.length items + S fuel))
              (OfflineService.AtFetch spec) log
        = prepend (map Build_Task items)
            (if p <? pc
             then drive (OfflineService.list_resume self) fuel
                    (OfflineService.AtFetch (set_page spec (p + 1)))
                    (log ++ [spec])%list
             else {| yielded := []; ended := Exhausted;
                     calls := (log ++ [spec])%list |}))
  /\ (let c := Remote.paged_client (fun _ => Remote.numbered 5) 3 in
      drive (OfflineService.list_resume (Remote.offline_on c)) 9
            (OfflineService.list (Remote.offline_on c)) []
      = {| yielded := map Build_Task (Remote.numbered 5);
           ended := Exhausted;
           calls := [offline_ListApi 1; offline_ListApi 2] |}
      /\ drive (StorageService.list_resume (Remote.storage_on c)) 9
               (StorageService.list (Remote.storage_on c) "0") []
         = {| yielded := map Build_File (Remote.numbered 5);
              ended := Exhausted;
              calls := [file_ListApi "0" 0; file_ListApi "0" 3] |}).
Proof.
  split; [reflexivity|]. split.
  - intros self spec log result tasks page page_count items p pc fuel
      Hres Htasks Hiter Hpage Hp Hcount Hpc.
    rewrite (task_list_page self spec log result tasks page page_count items
               (p <? pc) fuel Hres Htasks Hiter Hpage Hcount
               (lt_as_int _ _ _ _ Hp Hpc)).
    unfold Py.add_int. rewrite Hp. reflexivity.
  - split; vm_compute; reflexivity.
Qed.

Lemma task_listing_by_page_witness :
  drive (OfflineService.list_resume
           (Remote.offline_on
              (Remote.paged_client (fun _ => Remote.numbered 5) 3)))
        7 (OfflineService.AtFetch (offline_ListApi 1)) []
  = prepend (map Build_Task (firstn 3 (Remote.numbered 5)))
      (drive (OfflineService.list_resume
                (Remote.offline_on
                   (Remote.paged_client (fun _ => Remote.numbered 5) 3)))
             2 (OfflineService.AtFetch (offline_ListApi 2))
             [offline_ListApi 1]).
Proof.
  exact (proj1 (proj2 task_listing_by_page)
           (Remote.offline_on
              (Remote.paged_client (fun _ => Remote.numbered 5) 3))
           (offline_ListApi 1) []
           (Remote.task_page (Remote.numbered 5) 3 1)
           (PList (firstn 3 (Remote.numbered 5)))
           (PInt 1) (PInt 2) (firstn 3 (Remote.numbered 5))
           1 2 2%nat
           eq_refl eq_refl eq_refl eq_refl eq_refl eq_refl eq_refl).
Defined.

Lemma expected_offsets_NoDup (n limit : nat) :
  (0 < limit)%nat -> NoDup (Remote.expected_offsets n limit).
Proof.
  intros Hl. unfold Remote.expected_offsets.
  apply NoDup_map_NoDup_ForallPairs; [|apply seq_NoDup].
  intros a b _ _ H. nia.
Qed.

Lemma expected_pages_NoDup (n limit : nat) :
  NoDup (Remote.expected_pages n limit).
Proof.
  unfold Remote.expected_pages.
  apply NoDup_map_NoDup_ForallPairs; [|apply seq_NoDup].
  intros a b _ _ H. lia.
Qed.

Lemma NoDup_map_injective {A B : Type} (f : A -> B) (l : list A) :
  (forall a b, f a = f b -> a = b) -> NoDup l -> NoDup (map f l).
Proof.
  intros Hinj Hl. apply NoDup_map_NoDup_ForallPairs; [|exact Hl].
  intros a b _ _. apply Hinj.
Qed.

(** C5, amended: when the remote serves one unchanging collection in
    pages of a fixed positive size, a complete traversal ends by itself,
    for the file listing and for the task listing alike; it yields every
    record of the collection exactly once and in the remote's order, so
    as many items as the total reported with the first page; and no
    position is asked for twice. *)
Theorem steady_listings_enumerate_once
    (files : StorageService.t) (tasks : OfflineService.t)
    (dir_id : string) (h : Remote.history) (all : list pyval) (limit : nat) :
  (0 < limit)%nat ->
  Remote.unchanged h all ->
  Remote.serves_files (StorageService._client files) dir_id h limit ->
  Remote.serves_tasks (OfflineService._client tasks) h limit ->
  exists fuel0 : nat,
    forall fuel : nat,
      (fuel0 <= fuel)%nat ->
      drive (StorageService.list_resume files) fuel
            (StorageService.list files dir_id) []
      = {| yielded := map Build_File all;
           ended := Exhausted;
           calls := map (file_ListApi dir_id)
                      (Remote.expected_offsets (List.length all) limit) |}
      /\ drive (OfflineService.list_resume tasks) fuel
               (OfflineService.list tasks) []
         = {| yielded := map Build_Task all;
              ended := Exhausted;
              calls := map offline_ListApi
                         (Remote.expected_pages (List.length all) limit) |}
      /\ NoDup (map (file_ListApi dir_id)
                    (Remote.expected_offsets (List.length all) limit))
      /\ NoDup (map offline_ListApi
                    (Remote.expected_pages (List.length all) limit))
      /\ (exists r : pyval,
            respond (StorageService._client files) []
                    (file_ListApi dir_id 0) = Return r
            /\ Py.getitem r "count"
               = Return (PInt (Z.of_nat (List.length (map Build_File all)))))
      /\ (exists r : pyval,
            respond (OfflineService._client tasks) [] (offline_ListApi 1)
            = Return r
            /\ Py.getitem r "count"
               = Return (PInt (Z.of_nat (List.length (map Build_Task all))))).
Proof.
  intros Hl Hsame Hfiles Htasks.
  set (n := List.length all).
  set (pages := Nat.max 1 (Remote.div_ceil n limit)).
  assert (Sf : forall log offset,
             exists r,
               respond (StorageService._client files) log
                       (file_ListApi dir_id offset) = Return r
               /\ Remote.is_file_page r all limit offset).
  { intros log offset. destruct (Hfiles log offset) as (r & Hr & Hp).
    rewrite Hsame in Hp. now exists r. }
  assert (St : forall log page,
             exists r,
               respond (OfflineService._client tasks) log
                       (offline_ListApi page) = Return r
               /\ Remote.is_task_page r all limit page).
  { intros log page. destruct (Htasks log page) as (r & Hr & Hp).
    rewrite Hsame in Hp. now exists r. }
  exists (n + 2 * pages)%nat. intros fuel Hfuel.
  split; [|split; [|split; [|split; [|split]]]].
  - change (StorageService.list files dir_id)
      with (StorageService.AtFetch
              (file_ListApi dir_id (Z.of_nat (0 * limit)))).
    rewrite (steady_files_from files dir_id all limit Hl Sf
               (pages - 1) 0%nat [] fuel) by (fold n; fold pages; lia).
    cbn [Nat.mul skipn app]. unfold Remote.expected_offsets.
    fold n. fold pages. replace (S (pages - 1)) with pages by lia.
    now rewrite map_map.
  - change (OfflineService.list tasks)
      with (OfflineService.AtFetch (offline_ListApi (Z.of_nat 1))).
    rewrite (steady_tasks_from tasks all limit Hl St
               (pages - 1) 1%nat [] fuel) by (fold n; fold pages; lia).
    cbn [Nat.sub Nat.mul skipn app]. unfold Remote.expected_pages.
    fold n. fold pages. replace (S (pages - 1)) with pages by lia.
    now rewrite map_map.
  - apply NoDup_map_injective; [|now apply expected_offsets_NoDup].
    intros a b H. now injection H.
  - apply NoDup_map_injective; [|apply expected_pages_NoDup].
    intros a b H. now injection H.
  - destruct (Sf [] 0) as (r & Hr & _ & _ & Hc).
    exists r. split; [exact Hr|]. now rewrite length_map.
  - destruct (St [] 1) as (r & Hr & _ & _ & _ & Hc).
    exists r. split; [exact Hr|]. now rewrite length_map.
Qed.

Lemma steady_listings_enumerate_once_witness :
  exists fuel0 : nat,
    drive (StorageService.list_resume
             (Remote.storage_on
                (Remote.paged_client (fun _ => Remote.numbered 5) 2)))
          fuel0
          (StorageService.list
             (Remote.storage_on
                (Remote.paged_client (fun _ => Remote.numbered 5) 2)) "0")
          []
    = {| yielded := map Build_File (Remote.numbered 5);
         ended := Exhausted;
         calls := [file_ListApi "0" 0; file_ListApi "0" 2;
                   file_ListApi "0" 4] |}
    /\ drive (OfflineService.list_resume
                (Remote.offline_on
                   (Remote.paged_client (fun _ => Remote.numbered 5) 2)))
             fuel0
             (OfflineService.list
                (Remote.offline_on
                   (Remote.paged_client (fun _ => Remote.numbered 5) 2)))
             []
       = {| yielded := map Build_Task (Remote.numbered 5);
            ended := Exhausted;
            calls := [offline_ListApi 1; offline_ListApi 2;
                      offline_ListApi 3] |}.
Proof.
  destruct (steady_listings_enumerate_once
              (Remote.storage_on
                 (Remote.paged_client (fun _ => Remote.numbered 5) 2))
              (Remote.offline_on
                 (Remote.paged_client (fun _ => Remote.numbered 5) 2))
              "0" (fun _ => Remote.numbered 5) (Remote.numbered 5) 2
              ltac:(lia) (fun _ => eq_refl)
              (paged_client_serves_files _ 2 "0")
              (paged_client_serves_tasks _ 2)) as [fuel0 H].
  exists fuel0.
  destruct (H fuel0 (le_n fuel0)) as (Hfiles & Htasks & _).
  split; [exact Hfiles | exact Htasks].
Defined.

(** C5, as stated, fails.  A remote holds three records at the first
    call and four from then on, and serves two to a page: its total never
    shrinks and every page is the page of what it holds at that moment.
    Both listings report a total of 3 with their first page and yield 4
    items. *)
Lemma growing_listing_outgrows_first_total :
  Remote.no_shrink Remote.growing
  /\ Remote.serves_files Remote.growing_client "0" Remote.growing 2
  /\ Remote.serves_tasks Remote.growing_client Remote.growing 2
  /\ (exists r : pyval,
        respond Remote.growing_client [] (file_ListApi "0" 0) = Return r
        /\ Py.getitem r "count" = Return (PInt 3))
  /\ (exists r : pyval,
        respond Remote.growing_client [] (offline_ListApi 1) = Return r
        /\ Py.getitem r "count" = Return (PInt 3))
  /\ drive (StorageService.list_resume
              (Remote.storage_on Remote.growing_client)) 20
           (StorageService.list (Remote.storage_on Remote.growing_client) "0")
           []
     = {| yielded := map Build_File (Remote.numbered 4);
          ended := Exhausted;
          calls := [file_ListApi "0" 0; file_ListApi "0" 2] |}
  /\ drive (OfflineService.list_resume
              (Remote.offline_on Remote.growing_client)) 20
           (OfflineService.list (Remote.offline_on Remote.growing_client))
           []
     = {| yielded := map Build_Task (Remote.numbered 4);
          ended := Exhausted;
          calls := [offline_ListApi 1; offline_ListApi 2] |}
  /\ (forall extra : nat,
        drive (StorageService.list_resume
                 (Remote.storage_on Remote.growing_client)) (20 + extra)
              (StorageService.list
                 (Remote.storage_on Remote.growing_client) "0") []
        = drive (StorageService.list_resume
                   (Remote.storage_on Remote.growing_client)) 20
                (StorageService.list
                   (Remote.storage_on Remote.growing_client) "0") [])
  /\ List.length (map Build_File (Remote.numbered 4)) <> 3%nat.
Proof.
  split.
  { intros [|t]; cbn; lia. }
  split; [apply paged_client_serves_files|].
  split; [apply paged_client_serves_tasks|].
  split; [eexists; split; reflexivity|].
  split; [eexists; split; reflexivity|].
  split; [reflexivity|].
  split; [reflexivity|].
  split.
  { intros extra. apply drive_more_fuel. vm_compute. discriminate. }
  cbn. lia.
Qed.

(** * Further properties *)

(** ** Listings: laziness and failures *)

Section FileListingEdges.

Variable self : StorageService.t.

Let resume := StorageService.list_resume self.
Let client := StorageService._client self.

(** Inside a page, each resumption hands out one record and calls
    nothing. *)
Lemma file_take (spec : ApiSpec) (result : pyval) (k : nat) :
  forall (rest : list pyval) (log : CallLog),
    (k <= List.length rest)%nat ->
    drive resume k (StorageService.InFor spec result rest) log
    = {| yielded := map Build_File (firstn k rest);
         ended := Suspended;
         calls := log |}.
Proof.
  induction k as [|k IH]; intros rest log Hk.
  - reflexivity.
  - destruct rest as [|f rest]; cbn [List.length] in Hk; [lia|].
    cbn [drive]. unfold resume at 1.
    cbn [StorageService.list_resume ret]. fold resume.
    rewrite IH by lia. reflexivity.
Qed.

(** X1: the file listing is lazy.  Pulling [k] records of a page that
    holds at least [k] costs exactly one call, the fetch of that page,
    and hands out the first [k] records in order; the answer's [offset]
    and [count] are not even looked at. *)
Theorem file_listing_is_lazy (spec : ApiSpec) (log : CallLog)
    (result files : pyval) (items : list pyval) (k : nat) :
  respond client log spec = Return result ->
  Py.getitem result "files" = Return files ->
  Py.iter files = Return items ->
  (k <= List.length items)%nat ->
  drive resume (S k) (StorageService.AtFetch spec) log
  = {| yielded := map Build_File (firstn k items);
       ended := Suspended;
       calls := (log ++ [spec])%list |}.
Proof.
  intros Hres Hfiles Hiter Hk.
  cbn [drive]. unfold resume at 1.
  cbn [StorageService.list_resume]. run_calls.
  fold client. rewrite Hres, Hfiles, Hiter. fold resume.
  now apply file_take.
Qed.

(** X2: a page that cannot be fetched or read ends the file listing with
    the error, after that one call and without yielding anything from
    it: the call itself fails, the answer has no [files] entry (or is no
    dict at all), or [files] cannot be iterated. *)
Theorem file_listing_fetch_failure (spec : ApiSpec) (log : CallLog)
    (e : exn) (fuel : nat) :
  respond client log spec = Raise e
  \/ (exists result,
        respond client log spec = Return result
        /\ Py.getitem result "files" = Raise e)
  \/ (exists result files,
        respond client log spec = Return result
        /\ Py.getitem result "files" = Return files
        /\ Py.iter files = Raise e) ->
  drive resume (S fuel) (StorageService.AtFetch spec) log
  = {| yielded := []; ended := Raised e; calls := (log ++ [spec])%list |}.
Proof.
  intros H. cbn [drive]. unfold resume at 1.
  cbn [StorageService.list_resume]. run_calls. fold client.
  destruct H as [H | [(result & Hres & H) | (result & files & Hres & Hf & H)]].
  - now rewrite H.
  - now rewrite Hres, H.
  - now rewrite Hres, Hf, H.
Qed.

(** X3: the position of a page is worked out only after its records have
    been handed out.  When the answer lacks [offset] or [count], or
    holds something that is no number there, the listing still yields
    every record of the page, then ends with that error; it made one
    call. *)
Theorem file_listing_bookkeeping_failure (spec : ApiSpec) (log : CallLog)
    (result files : pyval) (items : list pyval) (e : exn) (fuel : nat) :
  respond client log spec = Return result ->
  Py.getitem result "files" = Return files ->
  Py.iter files = Return items ->
  Py.getitem result "offset" = Raise e
  \/ (exists off,
        Py.getitem result "offset" = Return off
        /\ Py.add_int off (Z.of_nat (List.length items)) = Raise e)
  \/ (exists off next_offset,
        Py.getitem result "offset" = Return off
        /\ Py.add_int off (Z.of_nat (List.length items)) = Return next_offset
        /\ Py.getitem result "count" = Raise e)
  \/ (exists off next_offset cnt,
        Py.getitem result "offset" = Return off
        /\ Py.add_int off (Z.of_nat (List.length items)) = Return next_offset
        /\ Py.getitem result "count" = Return cnt
        /\ Py.int_ge next_offset cnt = Raise e) ->
  drive resume (S (List.length items + S fuel))
        (StorageService.AtFetch spec) log
  = {| yielded := map Build_File items;
       ended := Raised e;
       calls := (log ++ [spec])%list |}.
Proof.
  intros Hres Hfiles Hiter H.
  cbn [drive]. unfold resume at 1.
  cbn [StorageService.list_resume]. run_calls.
  fold client. rewrite Hres, Hfiles, Hiter. fold resume.
  unfold resume. rewrite file_for_loop. fold resume.
  cbn [drive]. unfold resume at 1.
  cbn [StorageService.list_resume]. run_calls.
  rewrite Hfiles, (len_of_iter _ _ Hiter).
  unfold prepend.
  destruct H as [H | [(off & Ho & H) | [(off & nx & Ho & Hn & H)
                                      | (off & nx & cnt & Ho & Hn & Hc & H)]]].
  - rewrite H. cbn. now rewrite app_nil_r.
  - rewrite Ho, H. cbn. now rewrite app_nil_r.
  - rewrite Ho, Hn, H. cbn. now rewrite app_nil_r.
  - rewrite Ho, Hn, Hc, H. cbn. now rewrite app_nil_r.
Qed.

(** X4: what was yielded stays yielded when a later page fails.  After a
    page with more to come, a failing fetch of the next position ends
    the listing with that error; the records of the first page have been
    handed out, and the log shows both calls. *)
Theorem file_listing_keeps_items_before_failure (spec : ApiSpec)
    (log : CallLog) (result files off cnt : pyval) (items : list pyval)
    (o n : Z) (e : exn) (fuel : nat) :
  respond client log spec = Return result ->
  Py.getitem result "files" = Return files ->
  Py.iter files = Return items ->
  Py.getitem result "offset" = Return off ->
  Py.as_int off = Some o ->
  Py.getitem result "count" = Return cnt ->
  Py.as_int cnt = Some n ->
  o + Z.of_nat (List.length items) < n ->
  respond client (log ++ [spec])%list
          (set_offset spec (o + Z.of_nat (List.length items)))
  = Raise e ->
  drive resume (S (List.length items + S (S fuel)))
        (StorageService.AtFetch spec) log
  = {| yielded := map Build_File items;
       ended := Raised e;
       calls := (log ++ [spec;
                         set_offset spec (o + Z.of_nat (List.length items))])%list
    |}.
Proof.
  intros Hres Hfiles Hiter Hoff Ho Hcnt Hn Hlt Hfail.
  unfold resume.
  rewrite (file_list_page self spec log result files off cnt items o n
             (S fuel) Hres Hfiles Hiter Hoff Ho Hcnt Hn).
  cbv zeta. replace (o + Z.of_nat (List.length items) <? n) with true
    by (symmetry; now apply Z.ltb_lt).
  cbn [drive]. cbn [StorageService.list_resume]. run_calls.
  fold client. rewrite Hfail.
  unfold prepend; cbn [yielded ended calls].
  rewrite app_nil_r, <- app_assoc. reflexivity.
Qed.

End FileListingEdges.

(** ** Listings: what they ask for, and when they never end *)

Section FileListingCalls.

Variable self : StorageService.t.
Variable dir_id : string.

Let resume := StorageService.list_resume self.
Let client := StorageService._client self.

(** The frames of a listing of [dir_id]: the spec in hand is always a
    file listing of that directory. *)
Let on_dir (frame : StorageService.list_frame) : Prop :=
  match frame with
  | StorageService.AtFetch spec
  | StorageService.InFor spec _ _ => exists offset, spec = file_ListApi dir_id offset
  end.

Let lists_dir (spec : ApiSpec) : Prop :=
  exists offset, spec = file_ListApi dir_id offset.

Lemma file_listing_calls_from (fuel : nat) :
  forall (frame : StorageService.list_frame) (log : CallLog),
    on_dir frame ->
    exists extra : CallLog,
      calls (drive resume fuel frame log) = (log ++ extra)%list
      /\ Forall lists_dir extra.
Proof.
  induction fuel as [|fuel IH]; intros frame log Hframe.
  - exists []. cbn. now rewrite app_nil_r.
  - cbn [drive]. destruct frame as [spec | spec result [|f rest]].
    + (* the fetch: one more call, of the spec in hand *)
      unfold resume at 1. cbn [StorageService.list_resume]. run_calls.
      destruct (respond (StorageService._client self) log spec) as [r|e].
      2:{ exists [spec]. cbn. split; [reflexivity|]. now repeat constructor. }
      destruct (Py.getitem r "files") as [files|e].
      2:{ exists [spec]. cbn. split; [reflexivity|]. now repeat constructor. }
      destruct (Py.iter files) as [items|e].
      2:{ exists [spec]. cbn. split; [reflexivity|]. now repeat constructor. }
      fold resume.
      destruct (IH (StorageService.InFor spec r items) (log ++ [spec])%list
                  Hframe) as (extra & Hc & Hall).
      exists (spec :: extra). rewrite Hc, <- app_assoc.
      split; [reflexivity|]. now constructor.
    + (* the end of a page: no call *)
      unfold resume at 1. cbn [StorageService.list_resume]. run_calls.
      destruct (Py.getitem result "offset") as [off|e].
      2:{ exists []. cbn. now rewrite app_nil_r. }
      destruct (Py.getitem result "files") as [files|e].
      2:{ exists []. cbn. now rewrite app_nil_r. }
      destruct (Py.len files) as [n|e].
      2:{ exists []. cbn. now rewrite app_nil_r. }
      destruct (Py.add_int off n) as [next_offset|e].
      2:{ exists []. cbn. now rewrite app_nil_r. }
      destruct (Py.getitem result "count") as [cnt|e].
      2:{ exists []. cbn. now rewrite app_nil_r. }
      destruct (Py.int_ge next_offset cnt) as [[|]|e].
      * exists []. cbn. now rewrite app_nil_r.
      * fold resume. apply IH.
        destruct Hframe as [o ->]. now exists next_offset.
      * exists []. cbn. now rewrite app_nil_r.
    + (* a record: no call *)
      unfold resume at 1. cbn [StorageService.list_resume ret]. fold resume.
      cbn [calls].
      apply (IH (StorageService.InFor spec result rest) log Hframe).
Qed.

(** X5: a file listing only ever lists.  However far it is driven and
    whatever the remote answers, it leaves the calls made before it
    untouched and adds nothing but file-listing calls for the directory
    it was created for. *)
Theorem file_listing_only_lists (fuel : nat) (log : CallLog) :
  exists extra : CallLog,
    calls (drive (StorageService.list_resume self) fuel
                 (StorageService.list self dir_id) log)
    = (log ++ extra)%list
    /\ Forall (fun spec => exists offset, spec = file_ListApi dir_id offset)
              extra.
Proof.
  apply file_listing_calls_from. now exists 0.
Qed.

(** X6: an empty page that claims more is to come makes the file listing
    ask for the same offset again.  Against a remote that keeps giving
    that answer the listing never ends and never yields: every second
    resumption repeats the call. *)
Theorem file_listing_stuck_on_empty_page (o n : Z)
    (result files off cnt : pyval) :
  (forall log, respond client log (file_ListApi dir_id o) = Return result) ->
  Py.getitem result "files" = Return files ->
  Py.iter files = Return [] ->
  Py.getitem result "offset" = Return off ->
  Py.as_int off = Some o ->
  Py.getitem result "count" = Return cnt ->
  Py.as_int cnt = Some n ->
  o < n ->
  forall (fuel : nat) (log : CallLog),
    drive resume fuel (StorageService.AtFetch (file_ListApi dir_id o)) log
    = {| yielded := [];
         ended := Suspended;
         calls := (log ++ repeat (file_ListApi dir_id o) ((fuel + 1) / 2))%list
      |}.
Proof.
  intros Hres Hfiles Hiter Hoff Ho Hcnt Hn Hlt.
  assert (Hround : forall fuel log,
             drive resume (S (S fuel))
                   (StorageService.AtFetch (file_ListApi dir_id o)) log
             = drive resume fuel
                     (StorageService.AtFetch (file_ListApi dir_id o))
                     (log ++ [file_ListApi dir_id o])%list).
  { intros fuel log.
    change (S (S fuel)) with (S (List.length (@nil pyval) + S fuel)).
    unfold resume.
    rewrite (file_list_page self _ log result files off cnt [] o n fuel
               (Hres log) Hfiles Hiter Hoff Ho Hcnt Hn).
    cbv zeta. cbn [List.length Z.of_nat map].
    rewrite Z.add_0_r.
    replace (o <? n) with true by (symmetry; now apply Z.ltb_lt).
    cbn [set_offset]. apply prepend_nil. }
  assert (Hboth : forall m log,
             drive resume (2 * m)
                   (StorageService.AtFetch (file_ListApi dir_id o)) log
             = {| yielded := []; ended := Suspended;
                  calls := (log ++ repeat (file_ListApi dir_id o) m)%list |}
             /\ drive resume (S (2 * m))
                      (StorageService.AtFetch (file_ListApi dir_id o)) log
                = {| yielded := []; ended := Suspended;
                     calls := (log ++ repeat (file_ListApi dir_id o) (S m))%list
                  |}).
  { induction m as [|m IH]; intros log.
    - split.
      + cbn. now rewrite app_nil_r.
      + cbn [Nat.mul drive]. unfold resume at 1.
        cbn [StorageService.list_resume]. run_calls.
        fold client. now rewrite Hres, Hfiles, Hiter.
    - replace (2 * S m)%nat with (S (S (2 * m))) by lia.
      rewrite !Hround.
      destruct (IH (log ++ [file_ListApi dir_id o])%list) as [E1 E2].
      rewrite E1, E2. cbn [repeat].
      split; now rewrite <- app_assoc. }
  intros fuel log.
  destruct (Nat.Even_or_Odd fuel) as [[m ->] | [m ->]].
  - replace ((2 * m + 1) / 2)%nat with m
      by (apply (Nat.div_unique _ 2 m 1); lia).
    apply Hboth.
  - replace (2 * m + 1)%nat with (S (2 * m)) by lia.
    replace ((S (2 * m) + 1) / 2)%nat with (S m)
      by (apply (Nat.div_unique _ 2 (S m) 0); lia).
    apply Hboth.
Qed.

End FileListingCalls.

Section TaskListingEdges.

Variable self : OfflineService.t.

Let resume := OfflineService.list_resume self.
Let client := OfflineService._client self.

Lemma task_take (spec : ApiSpec) (result : pyval) (k : nat) :
  forall (rest : list pyval) (log : CallLog),
    (k <= List.length rest)%nat ->
    drive resume k (OfflineService.InFor spec result rest) log
    = {| yielded := map Build_Task (firstn k rest);
         ended := Suspended;
         calls := log |}.
Proof.
  induction k as [|k IH]; intros rest log Hk.
  - reflexivity.
  - destruct rest as [|f rest]; cbn [List.length] in Hk; [lia|].
    cbn [drive]. unfold resume at 1.
    cbn [OfflineService.list_resume ret]. fold resume.
    rewrite IH by lia. reflexivity.
Qed.

(** X7: the task listing is lazy.  Pulling [k] tasks of a page that
    holds at least [k] costs exactly one call and hands out the first
    [k] tasks in order; [page] and [page_count] are not looked at yet. *)
Theorem task_listing_is_lazy (spec : ApiSpec) (log : CallLog)
    (result tasks : pyval) (items : list pyval) (k : nat) :
  respond client log spec = Return result ->
  Py.getitem result "tasks" = Return tasks ->
  Py.iter tasks = Return items ->
  (k <= List.length items)%nat ->
  drive resume (S k) (OfflineService.AtFetch spec) log
  = {| yielded := map Build_Task (firstn k items);
       ended := Suspended;
       calls := (log ++ [spec])%list |}.
Proof.
  intros Hres Htasks Hiter Hk.
  cbn [drive]. unfold resume at 1.
  cbn [OfflineService.list_resume]. run_calls.
  fold client. rewrite Hres, Htasks, Hiter. fold resume.
  now apply task_take.
Qed.

(** X8: page numbers sent as text.  When [page] and [page_count] are
    both strings the comparison is the lexicographic one and raises
    nothing; the tasks of the page are yielded, and then the listing
    ends normally if [page < page_count] is false, and with a
    [TypeError] from [page + 1] if it is true.  It made one call. *)
Theorem task_listing_text_pages (spec : ApiSpec) (log : CallLog)
    (result tasks : pyval) (items : list pyval) (page page_count : string)
    (fuel : nat) :
  respond client log spec = Return result ->
  Py.getitem result "tasks" = Return tasks ->
  Py.iter tasks = Return items ->
  Py.getitem result "page" = Return (PStr page) ->
  Py.getitem result "page_count" = Return (PStr page_count) ->
  drive resume (S (List.length items + S fuel))
        (OfflineService.AtFetch spec) log
  = {| yielded := map Build_Task items;
       ended := if String.ltb page page_count
                then Raised TypeError else Exhausted;
       calls := (log ++ [spec])%list |}.
Proof.
  intros Hres Htasks Hiter Hpage Hcount.
  unfold resume.
  rewrite (task_list_page self spec log result tasks (PStr page)
             (PStr page_count) items (String.ltb page page_count) fuel
             Hres Htasks Hiter Hpage Hcount eq_refl).
  unfold prepend.
  destruct (String.ltb page page_count); cbn; now rewrite app_nil_r.
Qed.

(** The frames a task listing can be in. *)
Let listing (frame : OfflineService.list_frame) : Prop :=
  match frame with
  | OfflineService.AtFetch spec
  | OfflineService.InFor spec _ _ => exists page, spec = offline_ListApi page
  end.

Lemma task_listing_calls_from (fuel : nat) :
  forall (frame : OfflineService.list_frame) (log : CallLog),
    listing frame ->
    exists extra : CallLog,
      calls (drive resume fuel frame log) = (log ++ extra)%list
      /\ Forall (fun spec => exists page, spec = offline_ListApi page) extra.
Proof.
  induction fuel as [|fuel IH]; intros frame log Hframe.
  - exists []. cbn. now rewrite app_nil_r.
  - cbn [drive]. destruct frame as [spec | spec result [|f rest]].
    + unfold resume at 1. cbn [OfflineService.list_resume]. run_calls.
      destruct (respond (OfflineService._client self) log spec) as [r|e].
      2:{ exists [spec]. cbn. split; [reflexivity|]. now repeat constructor. }
      destruct (Py.getitem r "tasks") as [tasks|e].
      2:{ exists [spec]. cbn. split; [reflexivity|]. now repeat constructor. }
      destruct (Py.iter tasks) as [items|e].
      2:{ exists [spec]. cbn. split; [reflexivity|]. now repeat constructor. }
      fold resume.
      destruct (IH (OfflineService.InFor spec r items) (log ++ [spec])%list
                  Hframe) as (extra & Hc & Hall).
      exists (spec :: extra). rewrite Hc, <- app_assoc.
      split; [reflexivity|]. now constructor.
    + unfold resume at 1. cbn [OfflineService.list_resume]. run_calls.
      destruct (Py.getitem result "page") as [page|e].
      2:{ exists []. cbn. now rewrite app_nil_r. }
      destruct (Py.getitem result "page_count") as [page_count|e].
      2:{ exists []. cbn. now rewrite app_nil_r. }
      destruct (Py.lt page page_count) as [[|]|e].
      * destruct (Py.add_int page 1) as [next_page|e].
        2:{ exists []. cbn. now rewrite app_nil_r. }
        fold resume. apply IH.
        destruct Hframe as [q ->]. now exists next_page.
      * exists []. cbn. now rewrite app_nil_r.
      * exists []. cbn. now rewrite app_nil_r.
    + unfold resume at 1. cbn [OfflineService.list_resume ret]. fold resume.
      cbn [calls].
      apply (IH (OfflineService.InFor spec result rest) log Hframe).
Qed.

(** X9: a task listing only ever lists.  However far it is driven and
    whatever the remote answers, it leaves the calls made before it
    untouched and adds nothing but task-listing calls. *)
Theorem task_listing_only_lists (fuel : nat) (log : CallLog) :
  exists extra : CallLog,
    calls (drive (OfflineService.list_resume self) fuel
                 (OfflineService.list self) log)
    = (log ++ extra)%list
    /\ Forall (fun spec => exists page, spec = offline_ListApi page) extra.
Proof.
  apply task_listing_calls_from. now exists 1.
Qed.


End TaskListingEdges.

(** ** Upload and download: calls made and what [None] means *)

Section UploadEdges.

Variable self : StorageService.t.
Variables dir_id save_name : string.
Variable data_io : BinaryIO.
Variable log : CallLog.

Let client := StorageService._client self.
Let init_spec :=
  upload_InitApi ("U_1_" ++ dir_id) save_name data_io
                 (StorageService._upload_helper self).

(** X11: the upload negotiation never retries and never asks for a token
    first.  Whatever the remote answers, an unusable stream leaves the
    call log as it was, and a usable one adds the pre-check alone or the
    pre-check followed by one token call. *)
Theorem upload_call_budget :
  (readable data_io && seekable data_io = false ->
   snd (StorageService.request_upload_data self dir_id save_name data_io log)
   = log)
  /\ (readable data_io && seekable data_io = true ->
      snd (StorageService.request_upload_data self dir_id save_name
             data_io log)
      = (log ++ [init_spec])%list
      \/ snd (StorageService.request_upload_data self dir_id save_name
                data_io log)
         = (log ++ [init_spec; upload_TokenApi])%list).
Proof.
  unfold StorageService.request_upload_data. run_calls.
  fold client. fold init_spec.
  split; intros H; rewrite H; cbn [negb snd]; [reflexivity|].
  destruct (respond client log init_spec) as [init_result|e];
    [|now left].
  destruct (Py.getitem init_result "done") as [done|e]; [|now left].
  destruct (Py.truthy done); cbn [negb]; [now left|].
  right. rewrite <- app_assoc.
  now destruct (respond client (log ++ [init_spec])%list upload_TokenApi).
Qed.

(** X12: [None] from the upload negotiation means exactly that the
    stream was unusable.  With a readable, seekable stream the result is
    a ticket or an exception, never [None], whatever the remote
    answers. *)
Theorem upload_none_iff_unusable_stream :
  fst (StorageService.request_upload_data self dir_id save_name data_io log)
  = Return None
  <-> readable data_io && seekable data_io = false.
Proof.
  unfold StorageService.request_upload_data. run_calls.
  fold client. fold init_spec.
  destruct (readable data_io && seekable data_io); cbn [negb fst].
  - split; [|discriminate].
    destruct (respond client log init_spec) as [init_result|e];
      [|discriminate].
    destruct (Py.getitem init_result "done") as [done|e]; [|discriminate].
    destruct (Py.truthy done); cbn [negb]; [discriminate|].
    now destruct (respond client (log ++ [init_spec])%list upload_TokenApi).
  - now split.
Qed.

(** X13: a pre-check that fails, or whose answer has no readable [done]
    entry, ends the negotiation with that error after the one call; the
    token endpoint is not called. *)
Theorem upload_precheck_failure_skips_token (e : exn) :
  readable data_io = true ->
  seekable data_io = true ->
  respond client log init_spec = Raise e
  \/ (exists init_result,
        respond client log init_spec = Return init_result
        /\ Py.getitem init_result "done" = Raise e) ->
  StorageService.request_upload_data self dir_id save_name data_io log
  = (Raise e, (log ++ [init_spec])%list).
Proof.
  intros Hr Hs H.
  unfold StorageService.request_upload_data. run_calls.
  fold client. fold init_spec. rewrite Hr, Hs. cbn [andb negb].
  destruct H as [H | (init_result & Hres & H)].
  - now rewrite H.
  - now rewrite Hres, H.
Qed.

End UploadEdges.

Section DownloadEdges.

Variable self : StorageService.t.
Variable pickcode : string.
Variable log : CallLog.

Let client := StorageService._client self.
Let spec := file_DownloadApi pickcode.

(** X14: a download request is exactly one call.  Whether it returns a
    ticket, returns [None] or raises, [request_download] adds the
    download call for its pickcode to the log and nothing else. *)
Theorem download_single_call :
  snd (StorageService.request_download self pickcode log)
  = (log ++ [spec])%list.
Proof.
  unfold StorageService.request_download. run_calls.
  fold client. fold spec.
  destruct (respond client log spec) as [result|e]; [|reflexivity].
  destruct (Py.is_none result); [reflexivity|].
  destruct (Py.contains "url" result) as [[|]|e]; cbn [negb];
    try reflexivity.
  destruct (Py.getitem result "url") as [url|e]; [|reflexivity].
  now destruct (export_cookies client (log ++ [spec])%list url).
Qed.

(** X15: [None] from [request_download] means exactly that the call
    succeeded and its answer was [None] or had no [url] in it; a failed
    call is never turned into [None]. *)
Theorem download_none_iff_no_url :
  fst (StorageService.request_download self pickcode log) = Return None
  <-> exists result,
        respond client log spec = Return result
        /\ (result = PNone \/ Py.contains "url" result = Return false).
Proof.
  unfold StorageService.request_download. run_calls.
  fold client. fold spec.
  destruct (respond client log spec) as [result|e].
  - destruct (Py.is_none result) eqn:Hnone.
    + split; [|reflexivity]. intros _. exists result.
      split; [reflexivity|]. left. now destruct result.
    + destruct (Py.contains "url" result) as [[|]|e0] eqn:Hc; cbn [negb].
      * split.
        -- destruct (Py.getitem result "url") as [url|e0]; [|discriminate].
           now destruct (export_cookies client (log ++ [spec])%list url).
        -- intros (r & Hr & [H | H]); injection Hr as <-.
           ++ rewrite H in Hnone. discriminate.
           ++ congruence.
      * split; [|reflexivity]. intros _. exists result.
        split; [reflexivity|]. now right.
      * split; [discriminate|].
        intros (r & Hr & [H | H]); injection Hr as <-.
        -- rewrite H in Hnone. discriminate.
        -- congruence.
  - split; [discriminate|]. intros (r & Hr & _). discriminate.
Qed.

End DownloadEdges.

(** ** Uploading a local file: the name it is saved under *)

Lemma string_app_assoc (a b c : string) : (a ++ b) ++ c = a ++ (b ++ c).
Proof. induction a as [|x a IH]; cbn; [reflexivity | now rewrite IH]. Qed.

Lemma string_app_empty_r (a : string) : a ++ EmptyString = a.
Proof. induction a as [|x a IH]; cbn; [reflexivity | now rewrite IH]. Qed.

Lemma has_slash_app (a b : string) :
  has_slash (a ++ b) = has_slash a || has_slash b.
Proof.
  induction a as [|x a IH]; cbn; [reflexivity|].
  now rewrite IH, orb_assoc.
Qed.

(** What [last_component] returns is free of slashes and ends the path,
    and what stands before it is empty or ends in a slash. *)
Lemma last_component_spec (path : string) :
  forall acc : string,
    has_slash acc = false ->
    has_slash (last_component acc path) = false
    /\ exists prefix : string,
         acc ++ path = prefix ++ last_component acc path
         /\ (prefix = EmptyString \/ exists p, prefix = p ++ "/").
Proof.
  induction path as [|c rest IH]; intros acc Hacc; cbn [last_component].
  - split; [exact Hacc|]. exists EmptyString.
    split; [now rewrite string_app_empty_r | now left].
  - destruct (Ascii.eqb c "/"%char) eqn:Hc.
    + apply Ascii.eqb_eq in Hc. subst c.
      destruct (IH EmptyString eq_refl) as (Hno & prefix & Hsplit & Hend).
      split; [exact Hno|].
      exists (acc ++ "/" ++ prefix). split.
      * cbn [append] in Hsplit.
        replace (String "/" rest)
          with ("/" ++ prefix ++ last_component EmptyString rest)
          by (cbn [append]; now rewrite <- Hsplit).
        now rewrite !string_app_assoc.
      * right. destruct Hend as [-> | [p ->]].
        -- exists acc. now rewrite string_app_empty_r.
        -- exists (acc ++ "/" ++ p). now rewrite !string_app_assoc.
    + destruct (IH (acc ++ String c EmptyString)) as (Hno & prefix & Hsplit & Hend).
      { rewrite has_slash_app, Hacc. cbn. now rewrite Hc. }
      split; [exact Hno|].
      exists prefix. split; [|exact Hend].
      rewrite <- Hsplit. now rewrite string_app_assoc.
Qed.

Lemma last_component_plain (name : string) :
  forall acc : string,
    has_slash name = false -> last_component acc name = acc ++ name.
Proof.
  induction name as [|c rest IH]; intros acc H; cbn [last_component].
  - now rewrite string_app_empty_r.
  - cbn in H. apply orb_false_elim in H as [Hc Hrest].
    rewrite Hc, IH by exact Hrest. now rewrite string_app_assoc.
Qed.

Lemma last_component_after_slash (dir name acc : string) :
  last_component acc (dir ++ "/" ++ name) = last_component EmptyString name.
Proof.
  revert acc. induction dir as [|c rest IH]; intros acc.
  - reflexivity.
  - cbn [append last_component]. destruct (Ascii.eqb c "/"%char); apply IH.
Qed.

Section UploadFile.

Variable fs : LocalFS.
Variable self : StorageService.t.
Variables dir_id file_path : string.
Variable log : CallLog.

(** X16: [request_upload] touches the network only for a file it could
    open.  If the call log has grown, the path exists and was opened as
    a readable, seekable stream. *)
Theorem upload_calls_need_open_file :
  snd (StorageService.request_upload fs self dir_id file_path log) <> log ->
  path_exists fs file_path = true
  /\ exists io : BinaryIO,
       open_rb fs file_path = Return io
       /\ readable io = true /\ seekable io = true.
Proof.
  unfold StorageService.request_upload. run_calls.
  destruct (path_exists fs file_path); cbn [negb]; [|now intros []].
  destruct (open_rb fs file_path) as [io|e]; [|now intros []].
  unfold StorageService.request_upload_data.
  destruct (readable io) eqn:Hr, (seekable io) eqn:Hs; cbn [andb negb];
    try (now intros []).
  intros _. split; [reflexivity|]. now exists io.
Qed.

(** X17: an existing file that opens is negotiated under the last
    component of its path: a name without any slash that ends the path,
    what stands before it being empty or ending in a slash. *)
Theorem upload_saves_under_last_component (io : BinaryIO) :
  path_exists fs file_path = true ->
  open_rb fs file_path = Return io ->
  exists name : string,
    StorageService.request_upload fs self dir_id file_path log
    = StorageService.request_upload_data self dir_id name io log
    /\ has_slash name = false
    /\ exists prefix : string,
         file_path = prefix ++ name
         /\ (prefix = EmptyString \/ exists p, prefix = p ++ "/").
Proof.
  intros Hex Hopen. exists (basename file_path).
  split.
  - unfold StorageService.request_upload. run_calls.
    now rewrite Hex, Hopen.
  - apply (last_component_spec file_path EmptyString eq_refl).
Qed.

End UploadFile.

(** In particular a file [name] inside any directory path is saved as
    [name]. *)
Lemma upload_of_nested_file (fs : LocalFS) (self : StorageService.t)
    (dir_id dir name : string) (io : BinaryIO) (log : CallLog) :
  has_slash name = false ->
  path_exists fs (dir ++ "/" ++ name) = true ->
  open_rb fs (dir ++ "/" ++ name) = Return io ->
  StorageService.request_upload fs self dir_id (dir ++ "/" ++ name) log
  = StorageService.request_upload_data self dir_id name io log.
Proof.
  intros Hname Hex Hopen.
  unfold StorageService.request_upload. run_calls.
  rewrite Hex, Hopen. cbn [negb]. unfold basename.
  rewrite last_component_after_slash, last_component_plain by exact Hname.
  reflexivity.
Qed.


(** ** Bulk operations with something to do *)

(** X18: with at least one id, deleting tasks, deleting files and moving
    files each make exactly one call that carries all the ids in the
    order given, however many there are.  The answer is dropped; a
    failing call is raised to the caller. *)
Theorem bulk_is_one_batched_call (offline : OfflineService.t)
    (storage : StorageService.t) (target_dir_id : string)
    (ids : list string) (log : CallLog) :
  ids <> [] ->
  OfflineService.delete offline ids log
  = (match respond (OfflineService._client offline) log
                   (offline_DeleteApi ids) with
     | Return _ => Return tt
     | Raise e => Raise e
     end, (log ++ [offline_DeleteApi ids])%list)
  /\ StorageService.delete storage ids log
     = (match respond (StorageService._client storage) log
                      (file_DeleteApi ids) with
        | Return _ => Return tt
        | Raise e => Raise e
        end, (log ++ [file_DeleteApi ids])%list)
  /\ StorageService.move storage target_dir_id ids log
     = (match respond (StorageService._client storage) log
                      (file_MoveApi target_dir_id ids) with
        | Return _ => Return tt
        | Raise e => Raise e
        end, (log ++ [file_MoveApi target_dir_id ids])%list).
Proof.
  intros Hne. destruct ids as [|id ids]; [congruence|].
  unfold OfflineService.delete, StorageService.delete, StorageService.move.
  run_calls. cbn [List.length Nat.eqb].
  repeat split.
  - now destruct (respond (OfflineService._client offline) log _).
  - now destruct (respond (StorageService._client storage) log
                          (file_DeleteApi _)).
  - now destruct (respond (StorageService._client storage) log
                          (file_MoveApi _ _)).
Qed.

(** X19: with at least one URL, [add_url] makes one call carrying the
    app version, the user id and all the URLs, and returns one task per
    record of the answer, in the answer's order; how many tasks come
    back is decided by the answer, not by the number of URLs.  An answer
    that cannot be iterated, [None] for one, raises after the call. *)
Theorem add_url_wraps_answer (offline : OfflineService.t)
    (urls : list string) (log : CallLog) (answer : pyval) :
  urls <> [] ->
  respond (OfflineService._client offline) log
          (offline_AddUrlsApi (OfflineService._app_ver offline)
                              (OfflineService._user_id offline) urls)
  = Return answer ->
  OfflineService.add_url offline urls log
  = (match Py.iter answer with
     | Return records => Return (map Build_Task records)
     | Raise e => Raise e
     end,
     (log ++ [offline_AddUrlsApi (OfflineService._app_ver offline)
                                 (OfflineService._user_id offline) urls])%list).
Proof.
  intros Hne Hres. destruct urls as [|u urls]; [congruence|].
  unfold OfflineService.add_url. run_calls. cbn [List.length Nat.eqb].
  rewrite Hres. now destruct (Py.iter answer).
Qed.

(** ** Creating a directory *)

Lemma lookup_assign (k key : string) (x : pyval)
    (d : list (string * pyval)) :
  Py.lookup key (MakeDir.assign k x d)
  = if String.eqb key k then Some x else Py.lookup key d.
Proof.
  induction d as [|[k' v] d IH]; cbn [MakeDir.assign Py.lookup].
  - reflexivity.
  - destruct (String.eqb_spec k k') as [<- | Hkk'].
    + cbn [Py.lookup]. now destruct (String.eqb key k).
    + cbn [Py.lookup]. rewrite IH.
      destruct (String.eqb_spec key k') as [-> | Hne]; [|reflexivity].
      destruct (String.eqb_spec k' k) as [E | _]; [|reflexivity].
      now elim Hkk'.
Qed.

Lemma assign_keeps_order (k : string) (x : pyval)
    (d : list (string * pyval)) :
  map fst (MakeDir.assign k x d)
  = if Py.has_key k d then map fst d else (map fst d ++ [k])%list.
Proof.
  unfold Py.has_key.
  induction d as [|[k' v] d IH]; cbn [MakeDir.assign Py.lookup map app fst].
  - reflexivity.
  - destruct (String.eqb_spec k k') as [<- | Hkk']; [reflexivity|].
    cbn [map fst]. rewrite IH.
    now destruct (Py.lookup k d).
Qed.

(** X20: the [File] returned by [make_dir] has [pid] set to the parent
    the caller named, whatever the answer held there; every other entry
    of the answer is kept as it was, and so is the order of the entries,
    [pid] being added last when the answer had none.  One call is made. *)
Theorem make_dir_sets_parent (remote : MakeDir.DirRemote)
    (parent_id name : string) (log : list MakeDir.DirSpec)
    (d : list (string * pyval)) :
  remote log (MakeDir.dir_AddApi parent_id name) = Return (PDict d) ->
  exists d' : list (string * pyval),
    MakeDir.make_dir remote parent_id name log
    = (Return {| file_record := PDict d' |},
       (log ++ [MakeDir.dir_AddApi parent_id name])%list)
    /\ (forall key : string,
          Py.lookup key d'
          = if String.eqb key "pid" then Some (PStr parent_id)
            else Py.lookup key d)
    /\ map fst d'
       = if Py.has_key "pid" d then map fst d
         else (map fst d ++ ["pid"])%list.
Proof.
  intros Hres. exists (MakeDir.assign "pid" (PStr parent_id) d).
  unfold MakeDir.make_dir. rewrite Hres. cbn [MakeDir.setitem].
  split; [reflexivity|]. split.
  - intros key. apply lookup_assign.
  - apply assign_keeps_order.
Qed.

(** X21: when the answer to the creation call is no dict ([None], for
    one), [make_dir] raises [TypeError]; the call has been made by
    then. *)
Theorem make_dir_needs_a_dict (remote : MakeDir.DirRemote)
    (parent_id name : string) (log : list MakeDir.DirSpec)
    (answer : pyval) :
  remote log (MakeDir.dir_AddApi parent_id name) = Return answer ->
  (forall d, answer <> PDict d) ->
  MakeDir.make_dir remote parent_id name log
  = (Raise TypeError, (log ++ [MakeDir.dir_AddApi parent_id name])%list).
Proof.
  intros Hres Hnot. unfold MakeDir.make_dir. rewrite Hres.
  destruct answer; try reflexivity. now elim (Hnot entries).
Qed.


(** ** The further properties on scripted remotes *)

Lemma file_listing_is_lazy_witness :
  drive (StorageService.list_resume
           (Scripted.storage (Scripted.echo Scripted.first_page)))
        2 (StorageService.AtFetch (file_ListApi "0" 0)) []
  = {| yielded := [ {| file_record := PDict [("id", PInt 0)] |} ];
       ended := Suspended;
       calls := [file_ListApi "0" 0] |}.
Proof.
  exact (file_listing_is_lazy
           (Scripted.storage (Scripted.echo Scripted.first_page))
           (file_ListApi "0" 0) [] Scripted.first_page
           (PList Scripted.two_records) Scripted.two_records 1%nat
           eq_refl eq_refl eq_refl ltac:(cbn; lia)).
Defined.

Lemma file_listing_fetch_failure_witness :
  drive (StorageService.list_resume
           (Scripted.storage (Scripted.client [])))
        1 (StorageService.AtFetch (file_ListApi "0" 0)) []
  = {| yielded := [];
       ended := Raised (ApiError "no more answers");
       calls := [file_ListApi "0" 0] |}.
Proof.
  exact (file_listing_fetch_failure
           (Scripted.storage (Scripted.client []))
           (file_ListApi "0" 0) [] (ApiError "no more answers") 0%nat
           (or_introl eq_refl)).
Defined.

Lemma file_listing_bookkeeping_failure_witness :
  drive (StorageService.list_resume
           (Scripted.storage (Scripted.echo Scripted.uncounted_page)))
        4 (StorageService.AtFetch (file_ListApi "0" 0)) []
  = {| yielded := map Build_File Scripted.two_records;
       ended := Raised (KeyError "count");
       calls := [file_ListApi "0" 0] |}.
Proof.
  apply (file_listing_bookkeeping_failure
           (Scripted.storage (Scripted.echo Scripted.uncounted_page))
           (file_ListApi "0" 0) [] Scripted.uncounted_page
           (PList Scripted.two_records) Scripted.two_records
           (KeyError "count") 0%nat eq_refl eq_refl eq_refl).
  right. right. left. exists (PInt 0), 2. repeat split.
Defined.

Lemma file_listing_keeps_items_before_failure_witness :
  drive (StorageService.list_resume
           (Scripted.storage (Scripted.client [Return Scripted.first_page])))
        5 (StorageService.AtFetch (file_ListApi "0" 0)) []
  = {| yielded := map Build_File Scripted.two_records;
       ended := Raised (ApiError "no more answers");
       calls := [file_ListApi "0" 0; file_ListApi "0" 2] |}.
Proof.
  exact (file_listing_keeps_items_before_failure
           (Scripted.storage (Scripted.client [Return Scripted.first_page]))
           (file_ListApi "0" 0) [] Scripted.first_page
           (PList Scripted.two_records) (PInt 0) (PInt 5)
           Scripted.two_records 0 5 (ApiError "no more answers") 0%nat
           eq_refl eq_refl eq_refl eq_refl eq_refl eq_refl eq_refl
           eq_refl eq_refl).
Defined.

Lemma file_listing_stuck_on_empty_page_witness :
  drive (StorageService.list_resume
           (Scripted.storage (Scripted.echo Scripted.empty_page)))
        5 (StorageService.AtFetch (file_ListApi "0" 0)) []
  = {| yielded := [];
       ended := Suspended;
       calls := [file_ListApi "0" 0; file_ListApi "0" 0;
                 file_ListApi "0" 0] |}.
Proof.
  exact (file_listing_stuck_on_empty_page
           (Scripted.storage (Scripted.echo Scripted.empty_page)) "0" 0 3
           Scripted.empty_page (PList []) (PInt 0) (PInt 3)
           (fun _ => eq_refl) eq_refl eq_refl eq_refl eq_refl eq_refl eq_refl
           eq_refl 5%nat []).
Defined.

Lemma task_listing_is_lazy_witness :
  drive (OfflineService.list_resume
           (Scripted.offline (Scripted.echo Scripted.task_page_1_of_2)))
        3 (OfflineService.AtFetch (offline_ListApi 1)) []
  = {| yielded := map Build_Task Scripted.two_records;
       ended := Suspended;
       calls := [offline_ListApi 1] |}.
Proof.
  exact (task_listing_is_lazy
           (Scripted.offline (Scripted.echo Scripted.task_page_1_of_2))
           (offline_ListApi 1) [] Scripted.task_page_1_of_2
           (PList Scripted.two_records) Scripted.two_records 2%nat
           eq_refl eq_refl eq_refl ltac:(cbn; lia)).
Defined.

Lemma task_listing_text_pages_witness :
  drive (OfflineService.list_resume
           (Scripted.offline (Scripted.echo Scripted.task_page_as_text)))
        4 (OfflineService.AtFetch (offline_ListApi 1)) []
  = {| yielded := map Build_Task Scripted.two_records;
       ended := Raised TypeError;
       calls := [offline_ListApi 1] |}.
Proof.
  exact (task_listing_text_pages
           (Scripted.offline (Scripted.echo Scripted.task_page_as_text))
           (offline_ListApi 1) [] Scripted.task_page_as_text
           (PList Scripted.two_records) Scripted.two_records "1" "2" 0%nat
           eq_refl eq_refl eq_refl eq_refl eq_refl).
Defined.


Lemma upload_precheck_failure_skips_token_witness :
  StorageService.request_upload_data Sample.storage "0" "a.bin"
    Sample.memory_io []
  = (Raise (ApiError "offline"),
     [upload_InitApi "U_1_0" "a.bin" Sample.memory_io
                     {| helper_signature_key := "k" |}]).
Proof.
  exact (upload_precheck_failure_skips_token
           Sample.storage "0" "a.bin" Sample.memory_io []
           (ApiError "offline") eq_refl eq_refl (or_introl eq_refl)).
Defined.

Lemma upload_calls_need_open_file_witness :
  path_exists (Scripted.any_file_fs Sample.memory_io) "/tmp/a.bin" = true
  /\ exists io : BinaryIO,
       open_rb (Scripted.any_file_fs Sample.memory_io) "/tmp/a.bin"
       = Return io
       /\ readable io = true /\ seekable io = true.
Proof.
  apply (upload_calls_need_open_file
           (Scripted.any_file_fs Sample.memory_io) Sample.storage
           "0" "/tmp/a.bin" []).
  cbn. discriminate.
Defined.

Lemma upload_saves_under_last_component_witness :
  exists name : string,
    StorageService.request_upload (Scripted.any_file_fs Sample.memory_io)
      Sample.storage "0" "/tmp/a.bin" []
    = StorageService.request_upload_data Sample.storage "0" name
        Sample.memory_io []
    /\ has_slash name = false
    /\ exists prefix : string,
         "/tmp/a.bin" = prefix ++ name
         /\ (prefix = EmptyString \/ exists p, prefix = p ++ "/").
Proof.
  exact (upload_saves_under_last_component
           (Scripted.any_file_fs Sample.memory_io) Sample.storage
           "0" "/tmp/a.bin" [] Sample.memory_io eq_refl eq_refl).
Defined.

Lemma bulk_is_one_batched_call_witness :
  OfflineService.delete (Scripted.offline (Scripted.echo PNone))
    ["t1"; "t2"] []
  = (Return tt, [offline_DeleteApi ["t1"; "t2"]])
  /\ StorageService.delete (Scripted.storage (Scripted.echo PNone))
       ["t1"; "t2"] []
     = (Return tt, [file_DeleteApi ["t1"; "t2"]])
  /\ StorageService.move (Scripted.storage (Scripted.echo PNone)) "9"
       ["t1"; "t2"] []
     = (Return tt, [file_MoveApi "9" ["t1"; "t2"]]).
Proof.
  apply (bulk_is_one_batched_call
           (Scripted.offline (Scripted.echo PNone))
           (Scripted.storage (Scripted.echo PNone)) "9" ["t1"; "t2"] []).
  discriminate.
Defined.

Lemma add_url_wraps_answer_witness :
  OfflineService.add_url
    (Scripted.offline (Scripted.echo (PList Scripted.two_records)))
    ["magnet:a"; "magnet:b"; "magnet:c"] []
  = (Return (map Build_Task Scripted.two_records),
     [offline_AddUrlsApi "1.0" "u" ["magnet:a"; "magnet:b"; "magnet:c"]]).
Proof.
  apply (add_url_wraps_answer
           (Scripted.offline (Scripted.echo (PList Scripted.two_records)))
           ["magnet:a"; "magnet:b"; "magnet:c"] []
           (PList Scripted.two_records)).
  - discriminate.
  - reflexivity.
Defined.

Lemma make_dir_sets_parent_witness :
  exists d' : list (string * pyval),
    MakeDir.make_dir
      (MakeDir.answering
         (PDict [("cid", PStr "77"); ("pid", PStr "1"); ("cname", PStr "x")]))
      "42" "x" []
    = (Return {| file_record := PDict d' |}, [MakeDir.dir_AddApi "42" "x"])
    /\ (forall key : string,
          Py.lookup key d'
          = if String.eqb key "pid" then Some (PStr "42")
            else Py.lookup key
                   [("cid", PStr "77"); ("pid", PStr "1"); ("cname", PStr "x")])
    /\ map fst d' = ["cid"; "pid"; "cname"].
Proof.
  exact (make_dir_sets_parent
           (MakeDir.answering
              (PDict [("cid", PStr "77"); ("pid", PStr "1");
                      ("cname", PStr "x")]))
           "42" "x" []
           [("cid", PStr "77"); ("pid", PStr "1"); ("cname", PStr "x")]
           eq_refl).
Defined.

Lemma make_dir_needs_a_dict_witness :
  MakeDir.make_dir (MakeDir.answering PNone) "42" "x" []
  = (Raise TypeError, [MakeDir.dir_AddApi "42" "x"]).
Proof.
  apply (make_dir_needs_a_dict (MakeDir.answering PNone) "42" "x" [] PNone).
  - reflexivity.
  - discriminate.
Defined.
